(** * mcp-todo: the in-memory todo store of [coding_todo.py]

    A shallow embedding of the store ([todos]), of the four tools that
    mutate it ([add_todo], [update_todo_status], [delete_todo],
    [update_todo]) and of the two prompts that read it
    ([summarize_todos], [suggest_next_todo]), followed by the properties
    of the specification that concern them. *)

From Stdlib Require Import ZArith List String Ascii Bool Lia.
From Stdlib Require Import Permutation Sorted.
From Stdlib Require Import Decimal DecimalNat DecimalString.
Import ListNotations.

Local Open Scope string_scope.
Local Open Scope Z_scope.

(** ** Data model *)

(** [class TodoStatus(str, Enum)] *)
Inductive TodoStatus : Type :=
| PENDING
| IN_PROGRESS
| COMPLETED.

(** [TodoStatus.X.value] *)
Definition TodoStatus_value (s : TodoStatus) : string :=
  match s with
  | PENDING => "pending"
  | IN_PROGRESS => "in_progress"
  | COMPLETED => "completed"
  end.

(** [TodoStatus(v)]: the member whose value is [v]; [None] stands for the
    [ValueError] the enumeration raises on any other string. *)
Definition TodoStatus_of_value (v : string) : option TodoStatus :=
  if String.eqb v "pending" then Some PENDING
  else if String.eqb v "in_progress" then Some IN_PROGRESS
  else if String.eqb v "completed" then Some COMPLETED
  else None.

Definition TodoStatus_eqb (a b : TodoStatus) : bool :=
  match a, b with
  | PENDING, PENDING | IN_PROGRESS, IN_PROGRESS | COMPLETED, COMPLETED => true
  | _, _ => false
  end.

(** A [datetime] is a point on the (naive, totally ordered) time line. *)
Definition datetime : Type := Z.

(** [class Todo(BaseModel)] *)
Record Todo : Type := mkTodo {
  id : string;
  title : string;
  description : string;
  status : TodoStatus;
  created_at : datetime;
  updated_at : option datetime;
  project : option string;
  priority : Z;
  tags : list string
}.

(** Attribute assignment [todo.f = v] on a model instance. *)
Definition set_title (v : string) (t : Todo) : Todo :=
  mkTodo (id t) v (description t) (status t) (created_at t) (updated_at t)
         (project t) (priority t) (tags t).

Definition set_description (v : string) (t : Todo) : Todo :=
  mkTodo (id t) (title t) v (status t) (created_at t) (updated_at t)
         (project t) (priority t) (tags t).

Definition set_status (v : TodoStatus) (t : Todo) : Todo :=
  mkTodo (id t) (title t) (description t) v (created_at t) (updated_at t)
         (project t) (priority t) (tags t).

Definition set_updated_at (v : option datetime) (t : Todo) : Todo :=
  mkTodo (id t) (title t) (description t) (status t) (created_at t) v
         (project t) (priority t) (tags t).

Definition set_project (v : option string) (t : Todo) : Todo :=
  mkTodo (id t) (title t) (description t) (status t) (created_at t)
         (updated_at t) v (priority t) (tags t).

Definition set_priority (v : Z) (t : Todo) : Todo :=
  mkTodo (id t) (title t) (description t) (status t) (created_at t)
         (updated_at t) (project t) v (tags t).

Definition set_tags (v : list string) (t : Todo) : Todo :=
  mkTodo (id t) (title t) (description t) (status t) (created_at t)
         (updated_at t) (project t) (priority t) v.

(** [Todo(id=.., title=.., description=.., project=.., priority=.., tags=..)].
    The fields the call leaves out take the defaults of the class body:
    [status = TodoStatus.PENDING], [updated_at = None] and
    [created_at = datetime.now()].  A default is an expression of the class
    body, evaluated once, when the class statement runs; [class_now] is the
    value [datetime.now()] had at that moment. *)
Definition Todo_new (class_now : datetime) (todo_id title' description' : string)
    (project' : option string) (priority' : Z) (tags' : list string) : Todo :=
  {| id := todo_id;
     title := title';
     description := description';
     status := PENDING;
     created_at := class_now;
     updated_at := None;
     project := project';
     priority := priority';
     tags := tags' |}.

(** ** The store: an insertion-ordered [Dict[str, Todo]] *)

Definition dict : Type := list (string * Todo).

(** [d.get(k)] *)
Fixpoint dict_get (k : string) (d : dict) : option Todo :=
  match d with
  | [] => None
  | (k', v) :: r => if String.eqb k k' then Some v else dict_get k r
  end.

(** [k in d] *)
Definition dict_contains (k : string) (d : dict) : bool :=
  match dict_get k d with Some _ => true | None => false end.

(** [d[k] = v]: an existing key keeps its place, a new one goes last. *)
Fixpoint dict_set (k : string) (v : Todo) (d : dict) : dict :=
  match d with
  | [] => [(k, v)]
  | (k', v') :: r =>
      if String.eqb k k' then (k', v) :: r else (k', v') :: dict_set k v r
  end.

(** [del d[k]] *)
Fixpoint dict_del (k : string) (d : dict) : dict :=
  match d with
  | [] => []
  | (k', v') :: r => if String.eqb k k' then r else (k', v') :: dict_del k r
  end.

(** In-place mutation of the object stored under [k]: [d[k].f = v]. *)
Fixpoint dict_modify (k : string) (f : Todo -> Todo) (d : dict) : dict :=
  match d with
  | [] => []
  | (k', v') :: r =>
      if String.eqb k k' then (k', f v') :: r else (k', v') :: dict_modify k f r
  end.

(** [d.keys()], [d.values()] and [len(d)] *)
Definition dict_keys (d : dict) : list string := map fst d.
Definition dict_values (d : dict) : list Todo := map snd d.
Definition dict_len (d : dict) : nat := List.length d.

(** The shape every dictionary has: no key twice. *)
Definition dict_wf (d : dict) : Prop := NoDup (dict_keys d).

(** ** Strings *)

(** [chr(10)] *)
Definition nl : string := String (ascii_of_nat 10) EmptyString.

(** [str(n)] for a length and for an [int]. *)
Definition str_of_nat (n : nat) : string := NilZero.string_of_uint (Nat.to_uint n).
Definition str_of_int (z : Z) : string := NilZero.string_of_int (Z.to_int z).

(** Truth value of an optional string: [None] and [""] are false. *)
Definition str_truthy (o : option string) : bool :=
  match o with
  | Some s => negb (String.eqb s "")
  | None => false
  end.

(** [a == b] between an [Optional[str]] attribute and a string. *)
Definition opt_str_eqb (a : option string) (b : string) : bool :=
  match a with
  | Some s => String.eqb s b
  | None => false
  end.

(** ** Effects: the global [todos] and exceptions

    A tool runs against the global dictionary and either returns or
    raises.  A raise does not roll the dictionary back, so both outcomes
    carry the store the call leaves behind. *)

Inductive exn : Type :=
| ValueError (msg : string).

Inductive outcome (A : Type) : Type :=
| Return (a : A)
| Raise (e : exn).

Arguments Return {A} a.
Arguments Raise {A} e.

Definition M (A : Type) : Type := dict -> dict * outcome A.

Definition ret {A} (a : A) : M A := fun d => (d, Return a).

Definition raise {A} (e : exn) : M A := fun d => (d, Raise e).

Definition bind {A B} (m : M A) (k : A -> M B) : M B :=
  fun d =>
    match m d with
    | (d', Return a) => k a d'
    | (d', Raise e) => (d', Raise e)
    end.

Definition get_todos : M dict := fun d => (d, Return d).

Definition put_todos (f : dict -> dict) : M unit := fun d => (f d, Return tt).

Notation "x <- m ;; k" := (bind m (fun x => k))
  (at level 61, m at next level, right associativity).
Notation "m ;; k" := (bind m (fun _ => k))
  (at level 61, right associativity).

(** [if x is not None: body(x)] *)
Definition when_some {A} (o : option A) (body : A -> M unit) : M unit :=
  match o with
  | Some a => body a
  | None => ret tt
  end.

(** ** Prompts *)

(** The line of one todo in [summarize_todos]. *)
Definition summary_line (t : Todo) : string :=
  "- " ++ title t ++ " (Priority: " ++ str_of_int (priority t) ++ "): "
       ++ description t.

(** The local [filtered_todos] of [summarize_todos] once both filters ran. *)
Definition summarize_filtered (status' : string) (project' : option string)
    (todos : dict) : list Todo :=
  let filtered_todos := dict_values todos in
  let filtered_todos :=
    if negb (String.eqb status' "all")
    then filter (fun t => String.eqb (TodoStatus_value (status t)) status')
                filtered_todos
    else filtered_todos in
  let filtered_todos :=
    if str_truthy project'
    then filter (fun t => match project' with
                          | Some p => opt_str_eqb (project t) p
                          | None => false
                          end)
                filtered_todos
    else filtered_todos in
  filtered_todos.

Definition summarize_todos (status' : string) (project' : option string)
    (todos : dict) : string :=
  let filtered_todos := summarize_filtered status' project' todos in
  let status_text :=
    if negb (String.eqb status' "all") then status' ++ " " else "" in
  let project_text :=
    match project' with
    | Some p => if str_truthy project' then "for project " ++ p ++ " " else ""
    | None => ""
    end in
  "Here are the current " ++ status_text ++ "todos " ++ project_text
    ++ "to summarize:" ++ nl ++ nl
    ++ String.concat nl (map summary_line filtered_todos)
    ++ nl ++ nl
    ++ "Please provide a concise summary of these todos and suggest an approach to tackle them efficiently.".

(** [sorted(l, key=...)] with keys [(-t.priority, t.created_at)]: tuples
    compare lexicographically, and the sort is stable. *)
Definition sort_key (t : Todo) : Z * datetime := (- priority t, created_at t).

Definition key_ltb (a b : Z * datetime) : bool :=
  (fst a <? fst b) || ((fst a =? fst b) && (snd a <? snd b)).

Definition key_leb (a b : Z * datetime) : bool := negb (key_ltb b a).

(** Stable insertion: [x] goes before the first element it does not exceed
    when it comes from the left of the elements already placed. *)
Fixpoint insert_by_key (x : Todo) (l : list Todo) : list Todo :=
  match l with
  | [] => [x]
  | y :: r =>
      if key_leb (sort_key x) (sort_key y) then x :: y :: r
      else y :: insert_by_key x r
  end.

Fixpoint sorted (l : list Todo) : list Todo :=
  match l with
  | [] => []
  | x :: r => insert_by_key x (sorted r)
  end.

(** The line of one todo in [suggest_next_todo]. *)
Definition suggestion_line (t : Todo) : string :=
  "- " ++ title t ++ " (Priority: " ++ str_of_int (priority t)
       ++ ", Status: " ++ TodoStatus_value (status t) ++ "): " ++ description t.

(** The locals [pending_todos] and [sorted_todos] of [suggest_next_todo]. *)
Definition pending_todos (todos : dict) : list Todo :=
  filter (fun t => negb (TodoStatus_eqb (status t) COMPLETED)) (dict_values todos).

Definition sorted_todos (todos : dict) : list Todo := sorted (pending_todos todos).

Definition no_pending_message : string :=
  "There are no pending todos. Would you like suggestions for new coding tasks to add?".

Definition suggestion_text (l : list Todo) : string :=
  "Here are the current pending todos in order of priority:" ++ nl ++ nl
    ++ String.concat nl (map suggestion_line l)
    ++ nl ++ nl
    ++ "Based on these todos, which one should I tackle next and why? Please provide a brief recommendation.".

Definition suggest_next_todo (todos : dict) : string :=
  match pending_todos todos with
  | [] => no_pending_message
  | _ :: _ => suggestion_text (sorted_todos todos)
  end.

(** ** Tools *)

Definition add_todo (class_now : datetime) (title' description' : string)
    (project' : option string) (priority' : Z) (tags' : option (list string))
  : M string :=
  todos <- get_todos ;;
  let todo_id := "todo" ++ str_of_nat (dict_len todos + 1) in
  let new_todo :=
    Todo_new class_now todo_id title' description' project' priority'
             (match tags' with Some (x :: r) => x :: r | _ => [] end) in
  put_todos (dict_set todo_id new_todo) ;;
  ret ("Added todo '" ++ title' ++ "' with ID: " ++ todo_id).

Definition update_todo_status (now : datetime) (id' status' : string) : M string :=
  todos <- get_todos ;;
  if negb (dict_contains id' todos)
  then raise (ValueError ("Todo not found: " ++ id'))
  else
    match TodoStatus_of_value status' with
    | Some s =>
        put_todos (dict_modify id' (set_status s)) ;;
        put_todos (dict_modify id' (set_updated_at (Some now))) ;;
        todos <- get_todos ;;
        ret ("Updated todo '"
               ++ match dict_get id' todos with Some t => title t | None => "" end
               ++ "' status to " ++ status')
    | None =>
        raise (ValueError ("Invalid status: " ++ status'
                 ++ ". Must be one of: pending, in_progress, completed"))
    end.

Definition delete_todo (id' : string) : M string :=
  todos <- get_todos ;;
  match dict_get id' todos with
  | None => raise (ValueError ("Todo not found: " ++ id'))
  | Some t =>
      let title' := title t in
      put_todos (dict_del id') ;;
      ret ("Deleted todo '" ++ title' ++ "' (ID: " ++ id' ++ ")")
  end.

Definition update_todo (now : datetime) (id' : string)
    (title' description' project' : option string) (priority' : option Z)
    (tags' : option (list string)) : M string :=
  todos <- get_todos ;;
  if negb (dict_contains id' todos)
  then raise (ValueError ("Todo not found: " ++ id'))
  else
    when_some title' (fun v => put_todos (dict_modify id' (set_title v))) ;;
    when_some description'
      (fun v => put_todos (dict_modify id' (set_description v))) ;;
    when_some project'
      (fun v => put_todos (dict_modify id' (set_project (Some v)))) ;;
    when_some priority'
      (fun p =>
         if negb ((1 <=? p) && (p <=? 5))
         then raise (ValueError "Priority must be between 1 and 5")
         else put_todos (dict_modify id' (set_priority p))) ;;
    when_some tags' (fun v => put_todos (dict_modify id' (set_tags v))) ;;
    put_todos (dict_modify id' (set_updated_at (Some now))) ;;
    todos <- get_todos ;;
    ret ("Updated todo '"
           ++ match dict_get id' todos with Some t => title t | None => "" end
           ++ "' (ID: " ++ id' ++ ")").

(** [initialize_example_todos()]: the three example todos, stored under
    their own ids. *)
Definition example_todos (class_now : datetime) : list Todo :=
  [ Todo_new class_now "todo1" "Implement user authentication"
      "Add JWT-based authentication to the API endpoints"
      (Some "Backend API") 4 ["backend"; "security"];
    Todo_new class_now "todo2" "Fix CSS responsiveness"
      "The dashboard layout breaks on mobile devices"
      (Some "Frontend UI") 3 ["frontend"; "css"; "bugfix"];
    Todo_new class_now "todo3" "Write unit tests"
      "Create tests for the new data processing module"
      (Some "Backend API") 2 ["testing"; "quality"] ].

Definition initialize_example_todos (class_now : datetime) : M unit :=
  put_todos (fun todos =>
    fold_left (fun d todo => dict_set (id todo) todo d)
              (example_todos class_now) todos).

(** ** Tool calls over time *)

Inductive Call : Type :=
| AddTodo (title' description' : string) (project' : option string)
          (priority' : Z) (tags' : option (list string))
| UpdateTodoStatus (id' status' : string)
| DeleteTodo (id' : string)
| UpdateTodo (id' : string) (title' description' project' : option string)
             (priority' : option Z) (tags' : option (list string)).

(** One tool call, made when the clock reads [now]. *)
Definition call_tool (class_now now : datetime) (c : Call) : M string :=
  match c with
  | AddTodo t d p pr tg => add_todo class_now t d p pr tg
  | UpdateTodoStatus i s => update_todo_status now i s
  | DeleteTodo i => delete_todo i
  | UpdateTodo i t d p pr tg => update_todo now i t d p pr tg
  end.

(** The store after a session of timed calls; a call that raises is
    reported to the client and the server goes on with the store as the
    call left it. *)
Fixpoint run (class_now : datetime) (cs : list (datetime * Call)) (d : dict) : dict :=
  match cs with
  | [] => d
  | (now, c) :: r => run class_now r (fst (call_tool class_now now c d))
  end.

(** ** Resources *)

(** One turn of the loop of [get_todo_list]: the text so far, with the entry
    of one item of [todos.items()] added. *)
Definition list_entry (result : string) (item : string * Todo) : string :=
  let (todo_id, todo) := item in
  let status_marker :=
    if negb (TodoStatus_eqb (status todo) COMPLETED) then "[ ]" else "[x]" in
  let result :=
    result ++ status_marker ++ " **" ++ title todo ++ "** (ID: " ++ todo_id
           ++ ", Priority: " ++ str_of_int (priority todo) ++ ")" ++ nl in
  match tags todo with
  | [] => result
  | _ :: _ => result ++ "   Tags: " ++ String.concat ", " (tags todo) ++ nl
  end.

Definition get_todo_list (todos : dict) : string :=
  match todos with
  | [] => "No todos found."
  | _ :: _ => fold_left list_entry todos ("# Coding Project Todos" ++ nl ++ nl)
  end.

(** [get_todo_item(todo_id)].  [strftime] stands for
    [d.strftime('%Y-%m-%d %H:%M')], the library's rendering of a time. *)
Definition get_todo_item (strftime : datetime -> string) (todo_id : string)
  : M string :=
  todos <- get_todos ;;
  match dict_get todo_id todos with
  | None => raise (ValueError ("Todo not found: " ++ todo_id))
  | Some todo =>
      let result := "# Todo: " ++ title todo ++ nl ++ nl in
      let result :=
        result ++ "**Status:** " ++ TodoStatus_value (status todo) ++ nl in
      let result :=
        result ++ "**Priority:** " ++ str_of_int (priority todo) ++ "/5" ++ nl in
      let result :=
        result ++ "**Created:** " ++ strftime (created_at todo) ++ nl in
      let result :=
        match updated_at todo with
        | Some u => result ++ "**Updated:** " ++ strftime u ++ nl
        | None => result
        end in
      let result :=
        match project todo with
        | Some p =>
            if str_truthy (project todo)
            then result ++ "**Project:** " ++ p ++ nl
            else result
        | None => result
        end in
      let result :=
        match tags todo with
        | [] => result
        | _ :: _ => result ++ "**Tags:** " ++ String.concat ", " (tags todo) ++ nl
        end in
      ret (result ++ nl ++ "**Description:**" ++ nl ++ description todo ++ nl)
  end.

(** The store [__main__] serves: the empty dictionary, seeded. *)
Definition seeded_todos (class_now : datetime) : dict :=
  fst (initialize_example_todos class_now []).

(** ** Vocabulary of the store invariants *)

(** No key twice, and every task stored under its own [id]. *)
Definition store_inv (d : dict) : Prop :=
  dict_wf d /\ forall k t, In (k, t) d -> id t = k.

(** Every task has the [created_at] of the class body. *)
Definition created_at_all (class_now : datetime) (d : dict) : Prop :=
  forall t, In t (dict_values d) -> created_at t = class_now.

(** What [get_todo_list] prints of a task. *)
Definition listing_view (t : Todo) : string * Z * list string * bool :=
  (title t, priority t, tags t, TodoStatus_eqb (status t) COMPLETED).

(** The value an optional argument of [update_todo] leaves in a field. *)
Definition updated_field {A} (arg : option A) (old : A) : A :=
  match arg with Some v => v | None => old end.

(** ** Vocabulary of the properties *)

(** Case analysis on a key comparison, and the unfolding of one tool. *)
Ltac case_key k k' :=
  let E := fresh "E" in
  destruct (String.eqb k k') eqn:E;
  [ apply String.eqb_eq in E | apply String.eqb_neq in E ].

Ltac run_tool :=
  unfold bind, get_todos, put_todos, ret, raise, when_some; simpl.

(** The priority argument of [update_todo] passes its guard. *)
Definition priority_arg_ok (priority' : option Z) : Prop :=
  forall p, priority' = Some p -> 1 <= p <= 5.

(** What the assignments of [update_todo] do to the addressed object when
    no guard stops them. *)
Definition apply_fields (now : datetime) (title' description' project' : option string)
    (priority' : option Z) (tags' : option (list string)) (t : Todo) : Todo :=
  let t := match title' with Some v => set_title v t | None => t end in
  let t := match description' with Some v => set_description v t | None => t end in
  let t := match project' with Some v => set_project (Some v) t | None => t end in
  let t := match priority' with Some v => set_priority v t | None => t end in
  let t := match tags' with Some v => set_tags v t | None => t end in
  set_updated_at (Some now) t.

(** The selection in the words of the specification: the status filter is
    "all" or the status of the task, and the project of the task is the
    project filter whenever one is given. *)
Definition spec_summary_selection (status' : string) (project' : option string)
    (todos : dict) : list Todo :=
  filter (fun t =>
            (String.eqb status' "all"
             || String.eqb (TodoStatus_value (status t)) status')
            && match project' with
               | Some p => opt_str_eqb (project t) p
               | None => true
               end)
         (dict_values todos).

(** The selection the code makes: a project filter that is the empty string
    counts as no filter. *)
Definition summary_selected (status' : string) (project' : option string)
    (t : Todo) : bool :=
  (String.eqb status' "all" || String.eqb (TodoStatus_value (status t)) status')
  && match project' with
     | Some p => String.eqb p "" || opt_str_eqb (project t) p
     | None => true
     end.

(** [a] may stand before [b] in the suggestion list: higher priority first,
    and among equal priorities the earlier creation first. *)
Definition precedes (a b : Todo) : Prop :=
  priority a > priority b \/
  (priority a = priority b /\ created_at a <= created_at b).

(** [a] and [b] have one and the same sort key. *)
Definition same_key (a b : Todo) : bool :=
  (priority a =? priority b) && (created_at a =? created_at b).

(** The id [add_todo] gives to the task it stores in a store of [n] tasks. *)
Definition next_id (n : nat) : string := "todo" ++ str_of_nat (n + 1).

(** A store whose keys are the first [n] ids, in order. *)
Definition keys_are_first_ids (d : dict) : Prop :=
  dict_keys d = map next_id (seq 0 (dict_len d)).

(** A session of creations only. *)
Definition is_add (c : datetime * Call) : Prop :=
  match snd c with AddTodo _ _ _ _ _ => True | _ => False end.

(** The assignments [update_todo] has made by the time it reaches the
    priority guard. *)
Definition apply_early_fields (title' description' project' : option string)
    (t : Todo) : Todo :=
  let t := match title' with Some v => set_title v t | None => t end in
  let t := match description' with Some v => set_description v t | None => t end in
  match project' with Some v => set_project (Some v) t | None => t end.

(** The range the docstrings give for a priority. *)
Definition priority_in_range (t : Todo) : Prop := 1 <= priority t <= 5.

(** Every task of the store has its priority in 1..5. *)
Definition priorities_in_range (d : dict) : Prop :=
  forall t, In t (dict_values d) -> priority_in_range t.

(** A call keeps the priorities in range when it is not a creation, or is a
    creation whose priority argument is in range; the calls that raise are
    included. *)
Definition call_priority_ok (c : Call) : Prop :=
  match c with
  | AddTodo _ _ _ p _ => 1 <= p <= 5
  | _ => True
  end.

(** * Properties *)

(** ** The dictionary *)

Lemma dict_get_modify_same (k : string) (f : Todo -> Todo) (d : dict) :
  dict_get k (dict_modify k f d) = option_map f (dict_get k d).
Proof.
  induction d as [| [k' v] r IH]; simpl; [reflexivity |].
  destruct (String.eqb k k') eqn:E; simpl; rewrite E; auto.
Qed.

Lemma dict_get_modify_other (k k' : string) (f : Todo -> Todo) (d : dict) :
  k <> k' -> dict_get k' (dict_modify k f d) = dict_get k' d.
Proof.
  intros Hne.
  induction d as [| [k0 v] r IH]; simpl; [reflexivity |].
  case_key k k0; simpl.
  - subst k0. case_key k' k; [congruence | reflexivity].
  - rewrite IH. reflexivity.
Qed.

Lemma dict_keys_modify (k : string) (f : Todo -> Todo) (d : dict) :
  dict_keys (dict_modify k f d) = dict_keys d.
Proof.
  unfold dict_keys.
  induction d as [| [k' v] r IH]; simpl; [reflexivity |].
  destruct (String.eqb k k'); simpl; congruence.
Qed.

Lemma dict_modify_modify (k : string) (f g : Todo -> Todo) (d : dict) :
  dict_modify k f (dict_modify k g d) = dict_modify k (fun t => f (g t)) d.
Proof.
  induction d as [| [k' v] r IH]; simpl; [reflexivity |].
  destruct (String.eqb k k') eqn:E; simpl; rewrite E; congruence.
Qed.

Lemma dict_contains_modify (k k' : string) (f : Todo -> Todo) (d : dict) :
  dict_contains k' (dict_modify k f d) = dict_contains k' d.
Proof.
  unfold dict_contains.
  destruct (String.eqb k k') eqn:E.
  - apply String.eqb_eq in E. subst k'.
    rewrite dict_get_modify_same. destruct (dict_get k d); reflexivity.
  - apply String.eqb_neq in E. rewrite dict_get_modify_other by assumption.
    reflexivity.
Qed.

Lemma dict_contains_get (k : string) (d : dict) :
  dict_contains k d = true -> exists t, dict_get k d = Some t.
Proof.
  unfold dict_contains. destruct (dict_get k d) as [t |]; [eauto | discriminate].
Qed.

Lemma dict_get_In (k : string) (t : Todo) (d : dict) :
  dict_get k d = Some t -> In t (dict_values d).
Proof.
  unfold dict_values.
  induction d as [| [k' v] r IH]; simpl; [discriminate |].
  destruct (String.eqb k k'); intros H.
  - left. congruence.
  - right. auto.
Qed.

Lemma dict_values_modify_In (k : string) (f : Todo -> Todo) (d : dict) (t : Todo) :
  In t (dict_values (dict_modify k f d)) ->
  In t (dict_values d) \/ exists t0, In t0 (dict_values d) /\ t = f t0.
Proof.
  unfold dict_values.
  induction d as [| [k' v] r IH]; simpl; [tauto |].
  destruct (String.eqb k k'); simpl.
  - intros [H | H]; [right; exists v | left]; auto.
  - intros [H | H]; [left; auto |].
    destruct (IH H) as [H' | [t0 [H' Ht]]]; [left | right; exists t0]; auto.
Qed.

Lemma dict_wf_modify (k : string) (f : Todo -> Todo) (d : dict) :
  dict_wf d -> dict_wf (dict_modify k f d).
Proof. unfold dict_wf. rewrite dict_keys_modify. auto. Qed.

Lemma dict_keys_del_incl (k : string) (d : dict) :
  incl (dict_keys (dict_del k d)) (dict_keys d).
Proof.
  unfold dict_keys.
  induction d as [| [k' v] r IH]; simpl; [apply incl_refl |].
  destruct (String.eqb k k'); simpl.
  - apply incl_tl, incl_refl.
  - intros x [H | H]; [left | right]; auto.
Qed.

Lemma dict_wf_del (k : string) (d : dict) :
  dict_wf d -> dict_wf (dict_del k d).
Proof.
  unfold dict_wf, dict_keys.
  induction d as [| [k' v] r IH]; simpl; intros H; [exact H |].
  inversion H as [| x l Hnin Hnd]; subst.
  destruct (String.eqb k k'); simpl; [exact Hnd |].
  constructor; [| auto].
  intros Hin. apply Hnin. exact (dict_keys_del_incl k r k' Hin).
Qed.

Lemma dict_keys_set (k : string) (v : Todo) (d : dict) :
  dict_keys (dict_set k v d) =
  if dict_contains k d then dict_keys d else (dict_keys d ++ [k])%list.
Proof.
  unfold dict_keys, dict_contains.
  induction d as [| [k' v'] r IH]; simpl; [reflexivity |].
  destruct (String.eqb k k'); simpl; [reflexivity |].
  rewrite IH. destruct (dict_get k r); reflexivity.
Qed.

Lemma dict_contains_In (k : string) (d : dict) :
  dict_contains k d = true <-> In k (dict_keys d).
Proof.
  unfold dict_keys, dict_contains.
  induction d as [| [k' v'] r IH]; simpl.
  - split; [discriminate | tauto].
  - case_key k k'.
    + split; auto.
    + rewrite IH. split; [auto | intros [H | H]; [congruence | exact H]].
Qed.

Lemma dict_wf_set (k : string) (v : Todo) (d : dict) :
  dict_wf d -> dict_wf (dict_set k v d).
Proof.
  unfold dict_wf. rewrite dict_keys_set.
  destruct (dict_contains k d) eqn:E; [auto |].
  intros H. apply NoDup_app; [exact H | repeat constructor; simpl; tauto |].
  intros a Ha [Hk | []]. subst a.
  apply dict_contains_In in Ha. congruence.
Qed.

(** ** Status updates *)

Lemma TodoStatus_of_value_None (v : string) :
  v <> "pending" -> v <> "in_progress" -> v <> "completed" ->
  TodoStatus_of_value v = None.
Proof.
  intros H1 H2 H3. unfold TodoStatus_of_value.
  apply String.eqb_neq in H1, H2, H3. rewrite H1, H2, H3. reflexivity.
Qed.

Lemma TodoStatus_of_value_Some (v : string) (s : TodoStatus) :
  TodoStatus_of_value v = Some s <-> TodoStatus_value s = v.
Proof.
  unfold TodoStatus_of_value. split.
  - case_key v "pending"; [intros H; inversion H; subst; reflexivity |].
    case_key v "in_progress"; [intros H; inversion H; subst; reflexivity |].
    case_key v "completed"; [intros H; inversion H; subst; reflexivity |].
    discriminate.
  - intros <-. destruct s; reflexivity.
Qed.

(** C5: on an id of the store, [update_todo_status] with a string that is
    none of "pending", "in_progress" and "completed" raises the invalid
    status error and leaves the whole store as it was, so the task keeps its
    status and its [updated_at]. *)
Theorem update_todo_status_invalid_unchanged :
  forall (now : datetime) (id' status' : string) (todos : dict),
    dict_contains id' todos = true ->
    status' <> "pending" -> status' <> "in_progress" -> status' <> "completed" ->
    update_todo_status now id' status' todos =
      (todos,
       Raise (ValueError ("Invalid status: " ++ status'
                ++ ". Must be one of: pending, in_progress, completed"))).
Proof.
  intros now id' status' todos Hin H1 H2 H3.
  unfold update_todo_status, bind, get_todos. rewrite Hin. simpl.
  rewrite (TodoStatus_of_value_None status' H1 H2 H3). reflexivity.
Qed.

Lemma update_todo_status_invalid_unchanged_witness :
  let todos := [("todo1", Todo_new 0 "todo1" "a" "b" None 3 [])] in
  update_todo_status 7 "todo1" "done" todos =
    (todos,
     Raise (ValueError
       "Invalid status: done. Must be one of: pending, in_progress, completed")).
Proof.
  apply (update_todo_status_invalid_unchanged 7 "todo1" "done");
    [reflexivity | discriminate | discriminate | discriminate].
Defined.

(** A valid status on an id of the store is set and stamped. *)
Lemma update_todo_status_valid (now : datetime) (id' : string) (s : TodoStatus)
    (todos : dict) (t : Todo) :
  dict_get id' todos = Some t ->
  update_todo_status now id' (TodoStatus_value s) todos =
    (dict_modify id' (fun t => set_updated_at (Some now) (set_status s t)) todos,
     Return ("Updated todo '" ++ title t ++ "' status to " ++ TodoStatus_value s)).
Proof.
  intros Hget.
  unfold update_todo_status, bind, get_todos, dict_contains. rewrite Hget. simpl.
  replace (TodoStatus_of_value (TodoStatus_value s)) with (Some s)
    by (symmetry; apply TodoStatus_of_value_Some; reflexivity).
  unfold put_todos, ret. simpl.
  rewrite dict_modify_modify, dict_get_modify_same, Hget. reflexivity.
Qed.

(** ** Field updates *)

Lemma priority_guard (p : Z) :
  negb ((1 <=? p) && (p <=? 5)) = false <-> 1 <= p <= 5.
Proof.
  rewrite negb_false_iff, andb_true_iff, !Z.leb_le. tauto.
Qed.

Lemma update_todo_not_found (now : datetime) (id' : string)
    (title' description' project' : option string) (priority' : option Z)
    (tags' : option (list string)) (todos : dict) :
  dict_contains id' todos = false ->
  update_todo now id' title' description' project' priority' tags' todos =
    (todos, Raise (ValueError ("Todo not found: " ++ id'))).
Proof.
  intros H. unfold update_todo, bind, get_todos. rewrite H. reflexivity.
Qed.

(** A call on an id of the store whose priority argument passes the guard
    returns, and the stored object is the old one with the assignments made. *)
Lemma update_todo_ok (now : datetime) (id' : string)
    (title' description' project' : option string) (priority' : option Z)
    (tags' : option (list string)) (todos : dict) (t : Todo) :
  dict_get id' todos = Some t ->
  priority_arg_ok priority' ->
  exists todos',
    update_todo now id' title' description' project' priority' tags' todos =
      (todos',
       Return ("Updated todo '"
                 ++ title (apply_fields now title' description' project'
                                        priority' tags' t)
                 ++ "' (ID: " ++ id' ++ ")")) /\
    dict_get id' todos' =
      Some (apply_fields now title' description' project' priority' tags' t) /\
    dict_keys todos' = dict_keys todos /\
    (forall k, k <> id' -> dict_get k todos' = dict_get k todos).
Proof.
  intros Hget Hp.
  assert (Hc : dict_contains id' todos = true)
    by (unfold dict_contains; rewrite Hget; reflexivity).
  unfold update_todo, bind at 1, get_todos. rewrite Hc. simpl.
  assert (Hg : match priority' with
               | Some p => negb ((1 <=? p) && (p <=? 5)) = false
               | None => True
               end).
  { destruct priority' as [p |]; [| exact I].
    apply priority_guard, Hp. reflexivity. }
  destruct title', description', project', priority', tags';
    run_tool; rewrite ?Hg; simpl;
    (eexists; split; [| split; [| split]];
     [ rewrite ?dict_modify_modify, dict_get_modify_same, Hget; reflexivity
     | rewrite ?dict_modify_modify, dict_get_modify_same, Hget; reflexivity
     | rewrite ?dict_keys_modify; reflexivity
     | intros k Hk; rewrite ?dict_get_modify_other by congruence; reflexivity ]).
Qed.

(** A call that returns was made on an id of the store with a priority
    argument that passes the guard. *)
Lemma update_todo_Return_inv (now : datetime) (id' : string)
    (title' description' project' : option string) (priority' : option Z)
    (tags' : option (list string)) (todos todos' : dict) (msg : string) :
  update_todo now id' title' description' project' priority' tags' todos =
    (todos', Return msg) ->
  (exists t, dict_get id' todos = Some t) /\ priority_arg_ok priority'.
Proof.
  intros H.
  destruct (dict_contains id' todos) eqn:Hc.
  2:{ rewrite update_todo_not_found in H by assumption. discriminate. }
  split; [apply dict_contains_get; assumption |].
  intros p ->.
  destruct (negb ((1 <=? p) && (p <=? 5))) eqn:Hg;
    [| apply priority_guard; assumption].
  exfalso. revert H.
  unfold update_todo, bind at 1, get_todos. rewrite Hc. simpl.
  destruct title', description', project', tags';
    run_tool; rewrite Hg; simpl; discriminate.
Qed.

(** C8: every call of [update_todo] that returns leaves the addressed task
    in the store with [updated_at] set to the time of the call, whatever
    optional arguments came with it; when all of them are absent the task is
    the old one with nothing but the new stamp. *)
Theorem update_todo_stamps_updated_at :
  forall (now : datetime) (id' : string)
         (title' description' project' : option string) (priority' : option Z)
         (tags' : option (list string)) (todos todos' : dict) (msg : string),
    update_todo now id' title' description' project' priority' tags' todos =
      (todos', Return msg) ->
    exists t t',
      dict_get id' todos = Some t /\
      dict_get id' todos' = Some t' /\
      updated_at t' = Some now /\
      (title' = None -> description' = None -> project' = None ->
       priority' = None -> tags' = None ->
       t' = set_updated_at (Some now) t).
Proof.
  intros now id' ti de pr pri tg todos todos' msg H.
  destruct (update_todo_Return_inv _ _ _ _ _ _ _ _ _ _ H) as [[t Hget] Hp].
  destruct (update_todo_ok now id' ti de pr pri tg todos t Hget Hp)
    as [d [Hrun [Hget' _]]].
  rewrite Hrun in H. inversion H; subst d.
  exists t, (apply_fields now ti de pr pri tg t).
  repeat split; auto.
  intros -> -> -> -> ->. reflexivity.
Qed.

Lemma update_todo_stamps_updated_at_witness :
  exists t t',
    dict_get "todo1" [("todo1", Todo_new 0 "todo1" "a" "b" None 3 [])] = Some t /\
    dict_get "todo1"
      [("todo1", set_updated_at (Some 42) (Todo_new 0 "todo1" "a" "b" None 3 []))]
      = Some t' /\
    updated_at t' = Some 42 /\
    (@None string = None -> @None string = None -> @None string = None ->
     @None Z = None -> @None (list string) = None ->
     t' = set_updated_at (Some 42) t).
Proof.
  apply (update_todo_stamps_updated_at 42 "todo1" None None None None None
           [("todo1", Todo_new 0 "todo1" "a" "b" None 3 [])]
           [("todo1", set_updated_at (Some 42) (Todo_new 0 "todo1" "a" "b" None 3 []))]
           "Updated todo 'a' (ID: todo1)").
  reflexivity.
Defined.

(** ** The summary prompt *)

Lemma filter_filter {A} (f g : A -> bool) (l : list A) :
  filter g (filter f l) = filter (fun x => f x && g x) l.
Proof.
  induction l as [| x r IH]; simpl; [reflexivity |].
  destruct (f x); simpl; [destruct (g x) |]; congruence.
Qed.

Lemma filter_true {A} (l : list A) : filter (fun _ => true) l = l.
Proof. induction l; simpl; congruence. Qed.

Lemma summarize_filtered_selection (status' : string) (project' : option string)
    (todos : dict) :
  summarize_filtered status' project' todos =
  filter (summary_selected status' project') (dict_values todos).
Proof.
  unfold summarize_filtered, summary_selected, str_truthy.
  destruct (String.eqb status' "all"); simpl;
    destruct project' as [p |]; simpl;
    try destruct (String.eqb p ""); simpl;
    rewrite ?filter_filter;
    try (apply filter_ext; intros t; simpl; rewrite ?andb_true_r; reflexivity);
    symmetry; apply filter_true.
Qed.

(** C7, as the code has it: [summarize_todos] emits, between its fixed
    opening and closing sentences, one line for each task whose status is the
    status filter (or any task when the filter is "all") and whose project is
    the project filter when that filter is given and is not the empty
    string; the lines come in the order of the store, with no sorting. *)
Theorem summarize_todos_selection :
  forall (status' : string) (project' : option string) (todos : dict),
    summarize_filtered status' project' todos =
      filter (summary_selected status' project') (dict_values todos) /\
    summarize_todos status' project' todos =
      "Here are the current "
        ++ (if String.eqb status' "all" then "" else status' ++ " ")
        ++ "todos "
        ++ match project' with
           | Some p => if String.eqb p "" then "" else "for project " ++ p ++ " "
           | None => ""
           end
        ++ "to summarize:" ++ nl ++ nl
        ++ String.concat nl
             (map summary_line
                  (filter (summary_selected status' project') (dict_values todos)))
        ++ nl ++ nl
        ++ "Please provide a concise summary of these todos and suggest an approach to tackle them efficiently.".
Proof.
  intros status' project' todos.
  split; [apply summarize_filtered_selection |].
  unfold summarize_todos. rewrite summarize_filtered_selection.
  unfold str_truthy.
  destruct (String.eqb status' "all"); simpl;
    destruct project' as [p |]; simpl;
    try destruct (String.eqb p ""); reflexivity.
Qed.

(** C7, as the specification words it, fails: with the empty string as
    project filter the code keeps a pending task that has no project, which
    the specification's selection leaves out. *)
Lemma summarize_todos_spec_selection_fails :
  ~ (forall (status' : string) (project' : option string) (todos : dict),
       summarize_filtered status' project' todos =
       spec_summary_selection status' project' todos).
Proof.
  intros H.
  specialize (H "pending" (Some "")
                [("todo1", Todo_new 0 "todo1" "a" "b" None 1 [])]).
  vm_compute in H. discriminate H.
Qed.

(** C10: the empty string as project filter gives the very text that no
    project filter gives. *)
Theorem summarize_todos_empty_project :
  forall (status' : string) (todos : dict),
    summarize_todos status' (Some "") todos = summarize_todos status' None todos.
Proof.
  intros status' todos. reflexivity.
Qed.

(** ** The suggestion prompt *)

Lemma TodoStatus_eqb_eq (a b : TodoStatus) : TodoStatus_eqb a b = true <-> a = b.
Proof. destruct a, b; simpl; split; congruence. Qed.

Lemma pending_todos_all_completed (todos : dict) :
  (forall t, In t (dict_values todos) -> status t = COMPLETED) ->
  pending_todos todos = [].
Proof.
  unfold pending_todos. intros H.
  induction (dict_values todos) as [| x r IH]; simpl; [reflexivity |].
  rewrite (H x) by (left; reflexivity). simpl.
  apply IH. intros t Ht. apply H. right. exact Ht.
Qed.

(** C9: when every task of the store is completed, and so too when the store
    is empty, [suggest_next_todo] returns the fixed question about new
    tasks, which is not the text of a list without lines. *)
Theorem suggest_next_todo_all_completed :
  forall todos : dict,
    (forall t, In t (dict_values todos) -> status t = COMPLETED) ->
    suggest_next_todo todos =
      "There are no pending todos. Would you like suggestions for new coding tasks to add?"
    /\ suggest_next_todo todos <> suggestion_text [].
Proof.
  intros todos H. unfold suggest_next_todo.
  rewrite (pending_todos_all_completed todos H).
  split; [reflexivity | discriminate].
Qed.

Lemma suggest_next_todo_all_completed_witness :
  suggest_next_todo
    [("todo1", set_status COMPLETED (Todo_new 0 "todo1" "a" "b" None 3 []))] =
    "There are no pending todos. Would you like suggestions for new coding tasks to add?"
  /\ suggest_next_todo
       [("todo1", set_status COMPLETED (Todo_new 0 "todo1" "a" "b" None 3 []))]
     <> suggestion_text [].
Proof.
  apply (suggest_next_todo_all_completed
           [("todo1", set_status COMPLETED (Todo_new 0 "todo1" "a" "b" None 3 []))]).
  intros t [<- | []]. reflexivity.
Defined.

(** *** Sorting by [(-priority, created_at)] *)

Lemma key_leb_precedes (a b : Todo) :
  key_leb (sort_key a) (sort_key b) = true <-> precedes a b.
Proof.
  unfold key_leb, key_ltb, sort_key, precedes. simpl.
  rewrite negb_true_iff, orb_false_iff, andb_false_iff.
  rewrite !Z.ltb_ge, Z.eqb_neq. lia.
Qed.

Lemma key_leb_false (a b : Todo) :
  key_leb (sort_key a) (sort_key b) = false ->
  precedes b a /\ same_key a b = false.
Proof.
  unfold key_leb, key_ltb, sort_key, precedes, same_key. simpl.
  rewrite negb_false_iff, orb_true_iff, andb_true_iff, andb_false_iff.
  rewrite !Z.ltb_lt, !Z.eqb_eq, !Z.eqb_neq. lia.
Qed.

Lemma precedes_trans (a b c : Todo) : precedes a b -> precedes b c -> precedes a c.
Proof. unfold precedes. lia. Qed.

Lemma insert_by_key_perm (x : Todo) (l : list Todo) :
  Permutation (insert_by_key x l) (x :: l).
Proof.
  induction l as [| y r IH]; simpl; [apply Permutation_refl |].
  destruct (key_leb (sort_key x) (sort_key y)); [apply Permutation_refl |].
  eapply perm_trans; [apply perm_skip, IH | apply perm_swap].
Qed.

Lemma sorted_perm (l : list Todo) : Permutation (sorted l) l.
Proof.
  induction l as [| x r IH]; simpl; [constructor |].
  eapply perm_trans; [apply insert_by_key_perm | apply perm_skip, IH].
Qed.

Lemma insert_by_key_HdRel (a x : Todo) (l : list Todo) :
  precedes a x -> HdRel precedes a l -> HdRel precedes a (insert_by_key x l).
Proof.
  intros Hax Hal. destruct l as [| y r]; simpl; [constructor; exact Hax |].
  destruct (key_leb (sort_key x) (sort_key y)); constructor;
    [exact Hax | inversion Hal; assumption].
Qed.

Lemma insert_by_key_Sorted (x : Todo) (l : list Todo) :
  Sorted precedes l -> Sorted precedes (insert_by_key x l).
Proof.
  induction 1 as [| y r Hr IH Hhd]; simpl; [repeat constructor |].
  destruct (key_leb (sort_key x) (sort_key y)) eqn:E.
  - apply key_leb_precedes in E.
    constructor; [constructor; assumption | constructor; exact E].
  - apply key_leb_false in E. destruct E as [Hyx _].
    constructor; [exact IH | apply insert_by_key_HdRel; assumption].
Qed.

Lemma sorted_Sorted (l : list Todo) : Sorted precedes (sorted l).
Proof.
  induction l as [| x r IH]; simpl; [constructor |].
  apply insert_by_key_Sorted, IH.
Qed.

Lemma sorted_StronglySorted (l : list Todo) : StronglySorted precedes (sorted l).
Proof.
  apply Sorted_StronglySorted; [| apply sorted_Sorted].
  intros a b c. apply precedes_trans.
Qed.

(** The sort is stable: tasks with one and the same key keep their order. *)
Lemma same_key_sym (a b : Todo) : same_key a b = same_key b a.
Proof. unfold same_key. rewrite (Z.eqb_sym (priority a)), (Z.eqb_sym (created_at a)). reflexivity. Qed.

Lemma same_key_trans_false (k x y : Todo) :
  same_key k x = true -> same_key x y = false -> same_key k y = false.
Proof.
  unfold same_key. rewrite andb_true_iff, !andb_false_iff, !Z.eqb_eq, !Z.eqb_neq.
  lia.
Qed.

Lemma insert_by_key_stable (k x : Todo) (l : list Todo) :
  filter (same_key k) (insert_by_key x l) = filter (same_key k) (x :: l).
Proof.
  induction l as [| y r IH]; [reflexivity |].
  cbn [insert_by_key].
  destruct (key_leb (sort_key x) (sort_key y)) eqn:E; [reflexivity |].
  apply key_leb_false in E. destruct E as [_ Hxy].
  cbn [filter] in *. rewrite IH.
  destruct (same_key k x) eqn:Hkx; [| reflexivity].
  rewrite (same_key_trans_false k x y Hkx Hxy). reflexivity.
Qed.

Lemma sorted_stable (k : Todo) (l : list Todo) :
  filter (same_key k) (sorted l) = filter (same_key k) l.
Proof.
  induction l as [| x r IH]; [reflexivity |].
  cbn [sorted]. rewrite insert_by_key_stable. cbn [filter]. rewrite IH.
  reflexivity.
Qed.

Lemma sorted_nil_iff (l : list Todo) : sorted l = [] <-> l = [].
Proof.
  split; [| intros ->; reflexivity].
  intros H. apply Permutation_nil. rewrite <- H. apply sorted_perm.
Qed.

(** The text [suggest_next_todo] returns, written out: the fixed question
    when no task is left to do, and otherwise one line per task of
    [sorted_todos], in the order of that list, between the two fixed
    sentences. *)
Lemma suggest_next_todo_text (todos : dict) :
  suggest_next_todo todos =
    match sorted_todos todos with
    | [] => "There are no pending todos. Would you like suggestions for new coding tasks to add?"
    | t0 :: rest =>
        "Here are the current pending todos in order of priority:" ++ nl ++ nl
          ++ String.concat nl
               (map (fun t => "- " ++ title t ++ " (Priority: " ++ str_of_int (priority t)
                            ++ ", Status: " ++ TodoStatus_value (status t)
                            ++ "): " ++ description t)
                    (t0 :: rest))
          ++ nl ++ nl
          ++ "Based on these todos, which one should I tackle next and why? Please provide a brief recommendation."
    end.
Proof.
  unfold suggest_next_todo, sorted_todos.
  destruct (pending_todos todos) as [| x r] eqn:E; [reflexivity |].
  destruct (sorted (x :: r)) eqn:E'; [| reflexivity].
  apply (proj1 (sorted_nil_iff _)) in E'. discriminate.
Qed.

(** C6: the text [suggest_next_todo] returns has one line for each task of
    the store that is not completed, each as often as the store has it, and
    for no other; the lines come by priority, highest first, and by earliest
    [created_at] among equal priorities; the text is the fixed message when
    there is no such task.  Three tasks stored with (priority, created_at) =
    (2,t1), (5,t2), (5,t1), t1 < t2, none completed, are listed in the order
    (5,t1), (5,t2), (2,t1). *)
Theorem suggest_next_todo_order :
  (forall todos : dict,
     Permutation (sorted_todos todos)
       (filter (fun t => negb (TodoStatus_eqb (status t) COMPLETED))
               (dict_values todos)) /\
     (forall t, In t (sorted_todos todos) <->
                In t (dict_values todos) /\ status t <> COMPLETED) /\
     StronglySorted precedes (sorted_todos todos) /\
     suggest_next_todo todos =
       match sorted_todos todos with
       | [] => "There are no pending todos. Would you like suggestions for new coding tasks to add?"
       | t0 :: rest =>
           "Here are the current pending todos in order of priority:" ++ nl ++ nl
             ++ String.concat nl
                  (map (fun t => "- " ++ title t ++ " (Priority: " ++ str_of_int (priority t)
                            ++ ", Status: " ++ TodoStatus_value (status t)
                            ++ "): " ++ description t)
                       (t0 :: rest))
             ++ nl ++ nl
             ++ "Based on these todos, which one should I tackle next and why? Please provide a brief recommendation."
       end) /\
  (forall (t1 t2 : datetime) (ka kb kc : string) (a b c : Todo),
     t1 < t2 ->
     priority a = 2 -> created_at a = t1 -> status a <> COMPLETED ->
     priority b = 5 -> created_at b = t2 -> status b <> COMPLETED ->
     priority c = 5 -> created_at c = t1 -> status c <> COMPLETED ->
     sorted_todos [(ka, a); (kb, b); (kc, c)] = [c; b; a] /\
     suggest_next_todo [(ka, a); (kb, b); (kc, c)] =
       "Here are the current pending todos in order of priority:" ++ nl ++ nl
         ++ String.concat nl
              (map (fun t => "- " ++ title t ++ " (Priority: " ++ str_of_int (priority t)
                            ++ ", Status: " ++ TodoStatus_value (status t)
                            ++ "): " ++ description t)
                   [c; b; a])
         ++ nl ++ nl
         ++ "Based on these todos, which one should I tackle next and why? Please provide a brief recommendation.").
Proof.
  split.
  - intros todos. split; [| split; [| split]].
    + unfold sorted_todos. apply sorted_perm.
    + unfold sorted_todos. intros t. split.
      * intros H. apply (Permutation_in _ (sorted_perm _)) in H.
        unfold pending_todos in H. apply filter_In in H. destruct H as [Hin Hs].
        split; [exact Hin |].
        intros Hc. rewrite Hc in Hs. discriminate.
      * intros [Hin Hs].
        apply (Permutation_in _ (Permutation_sym (sorted_perm _))).
        unfold pending_todos. apply filter_In. split; [exact Hin |].
        destruct (TodoStatus_eqb (status t) COMPLETED) eqn:E; [| reflexivity].
        apply TodoStatus_eqb_eq in E. contradiction.
    + unfold sorted_todos. apply sorted_StronglySorted.
    + apply suggest_next_todo_text.
  - intros t1 t2 ka kb kc a b c Hlt Hpa Hca Hsa Hpb Hcb Hsb Hpc Hcc Hsc.
    assert (Hn : forall t, status t <> COMPLETED ->
                           negb (TodoStatus_eqb (status t) COMPLETED) = true).
    { intros t Ht. destruct (status t); simpl; congruence. }
    assert (E1 : (t1 <? t2) = true) by (apply Z.ltb_lt; lia).
    assert (Hbc : key_leb (sort_key b) (sort_key c) = false).
    { unfold key_leb, key_ltb, sort_key. simpl.
      rewrite Hpb, Hpc, Hcb, Hcc. simpl. rewrite E1. reflexivity. }
    assert (Hac : key_leb (sort_key a) (sort_key c) = false).
    { unfold key_leb, key_ltb, sort_key. simpl.
      rewrite Hpa, Hpc. reflexivity. }
    assert (Hab : key_leb (sort_key a) (sort_key b) = false).
    { unfold key_leb, key_ltb, sort_key. simpl.
      rewrite Hpa, Hpb. reflexivity. }
    assert (Hsorted : sorted_todos [(ka, a); (kb, b); (kc, c)] = [c; b; a]).
    { unfold sorted_todos, pending_todos.
      cbn [dict_values map snd filter].
      rewrite (Hn a Hsa), (Hn b Hsb), (Hn c Hsc).
      cbn [sorted insert_by_key]. rewrite Hbc.
      cbn [insert_by_key]. rewrite Hac.
      cbn [insert_by_key]. rewrite Hab.
      reflexivity. }
    split; [exact Hsorted |].
    rewrite suggest_next_todo_text, Hsorted. reflexivity.
Qed.

Lemma suggest_next_todo_order_witness :
  suggest_next_todo
    [("todo1", mkTodo "todo1" "a" "" PENDING 1 None None 2 []);
     ("todo2", mkTodo "todo2" "b" "" IN_PROGRESS 2 None None 5 []);
     ("todo3", mkTodo "todo3" "c" "" PENDING 1 None None 5 [])] =
    "Here are the current pending todos in order of priority:" ++ nl ++ nl
      ++ String.concat nl
           (map (fun t => "- " ++ title t ++ " (Priority: " ++ str_of_int (priority t)
                            ++ ", Status: " ++ TodoStatus_value (status t)
                            ++ "): " ++ description t)
                [mkTodo "todo3" "c" "" PENDING 1 None None 5 [];
             mkTodo "todo2" "b" "" IN_PROGRESS 2 None None 5 [];
             mkTodo "todo1" "a" "" PENDING 1 None None 2 []])
      ++ nl ++ nl
      ++ "Based on these todos, which one should I tackle next and why? Please provide a brief recommendation.".
Proof.
  apply (proj2 suggest_next_todo_order 1 2 "todo1" "todo2" "todo3");
    solve [reflexivity | discriminate].
Defined.

(** ** Creation *)

(** What [add_todo] does, in one equation. *)
Lemma add_todo_eq (class_now : datetime) (title' description' : string)
    (project' : option string) (priority' : Z) (tags' : option (list string))
    (todos : dict) :
  add_todo class_now title' description' project' priority' tags' todos =
    (dict_set (next_id (dict_len todos))
       (Todo_new class_now (next_id (dict_len todos)) title' description'
                 project' priority'
                 (match tags' with Some (x :: r) => x :: r | _ => [] end))
       todos,
     Return ("Added todo '" ++ title' ++ "' with ID: "
               ++ next_id (dict_len todos))).
Proof. reflexivity. Qed.

Lemma dict_get_set_same (k : string) (v : Todo) (d : dict) :
  dict_get k (dict_set k v d) = Some v.
Proof.
  induction d as [| [k' v'] r IH]; simpl.
  - rewrite String.eqb_refl. reflexivity.
  - destruct (String.eqb k k') eqn:E; simpl; rewrite E; auto.
Qed.

(** The task [add_todo] stores is pending, has no [updated_at], and has the
    [created_at] of the class body, whenever the call is made. *)
Lemma add_todo_new_task (class_now now : datetime) (title' description' : string)
    (project' : option string) (priority' : Z) (tags' : option (list string))
    (todos : dict) :
  exists t,
    dict_get (next_id (dict_len todos))
      (fst (call_tool class_now now
              (AddTodo title' description' project' priority' tags') todos))
      = Some t /\
    title t = title' /\ description t = description' /\
    project t = project' /\ priority t = priority' /\
    status t = PENDING /\ updated_at t = None /\ created_at t = class_now.
Proof.
  unfold call_tool. rewrite add_todo_eq. cbn [fst]. rewrite dict_get_set_same.
  eexists. split; [reflexivity |]. repeat split.
Qed.

(** Decimal numerals tell numbers apart. *)
Lemma to_uint_nonnil (n : nat) : Nat.to_uint n <> Nil.
Proof.
  rewrite <- (DecimalNat.Unsigned.of_to n) at 1.
  rewrite DecimalNat.Unsigned.to_of. apply DecimalFacts.unorm_nonnil.
Qed.

Lemma str_of_nat_inj (a b : nat) : str_of_nat a = str_of_nat b -> a = b.
Proof.
  unfold str_of_nat. intros H.
  apply (f_equal NilZero.uint_of_string) in H.
  rewrite !NilZero.usu in H by apply to_uint_nonnil.
  inversion H as [H']. apply DecimalNat.Unsigned.to_uint_inj. exact H'.
Qed.

Lemma next_id_inj (a b : nat) : next_id a = next_id b -> a = b.
Proof.
  unfold next_id. intros H. simpl in H. inversion H as [H'].
  apply str_of_nat_inj in H'. lia.
Qed.

Lemma add_todo_first_ids (class_now : datetime) (title' description' : string)
    (project' : option string) (priority' : Z) (tags' : option (list string))
    (d : dict) :
  keys_are_first_ids d ->
  let d' := fst (add_todo class_now title' description' project' priority' tags' d) in
  keys_are_first_ids d' /\ dict_len d' = S (dict_len d).
Proof.
  intros H. rewrite add_todo_eq. simpl.
  assert (Hnew : dict_contains (next_id (dict_len d)) d = false).
  { destruct (dict_contains (next_id (dict_len d)) d) eqn:E; [| reflexivity].
    apply dict_contains_In in E. rewrite H in E.
    apply in_map_iff in E. destruct E as [i [Hi Hin]].
    apply next_id_inj in Hi. apply in_seq in Hin. lia. }
  assert (Hk : dict_keys (dict_set (next_id (dict_len d))
                  (Todo_new class_now (next_id (dict_len d)) title' description'
                     project' priority'
                     (match tags' with Some (x :: r) => x :: r | _ => [] end)) d)
               = (dict_keys d ++ [next_id (dict_len d)])%list).
  { rewrite dict_keys_set, Hnew. reflexivity. }
  assert (Hl : forall d0 : dict, dict_len d0 = List.length (dict_keys d0)).
  { intros d0. unfold dict_len, dict_keys. rewrite length_map. reflexivity. }
  assert (Hlen : dict_len (dict_set (next_id (dict_len d))
                  (Todo_new class_now (next_id (dict_len d)) title' description'
                     project' priority'
                     (match tags' with Some (x :: r) => x :: r | _ => [] end)) d)
                 = S (dict_len d)).
  { rewrite (Hl (dict_set _ _ _)), Hk, length_app, <- Hl. simpl. lia. }
  split; [| exact Hlen].
  unfold keys_are_first_ids. rewrite Hlen, Hk, seq_S, map_app, <- H. reflexivity.
Qed.

Lemma run_adds_first_ids (class_now : datetime) (cs : list (datetime * Call)) :
  Forall is_add cs ->
  forall d, keys_are_first_ids d ->
    keys_are_first_ids (run class_now cs d) /\
    dict_len (run class_now cs d) = (dict_len d + List.length cs)%nat.
Proof.
  induction 1 as [| [now c] r Hc Hr IH]; intros d Hd.
  - simpl. split; [exact Hd | lia].
  - destruct c as [t de p pr tg | | |]; try contradiction.
    cbn [run call_tool List.length].
    destruct (add_todo_first_ids class_now t de p pr tg d Hd) as [Hk Hl].
    destruct (IH _ Hk) as [Hk' Hl']. split; [exact Hk' |].
    rewrite Hl', Hl. lia.
Qed.

(** The part of C1 that holds: N creations on the empty store leave N tasks
    under the N distinct ids todo1 .. todoN. *)
Lemma creations_give_distinct_ids (class_now : datetime)
    (cs : list (datetime * Call)) :
  Forall is_add cs ->
  dict_keys (run class_now cs []) = map next_id (seq 0 (List.length cs)) /\
  NoDup (dict_keys (run class_now cs [])).
Proof.
  intros H.
  destruct (run_adds_first_ids class_now cs H [] eq_refl) as [Hk Hl].
  simpl in Hl. unfold keys_are_first_ids in Hk. rewrite Hl in Hk.
  split; [exact Hk |]. rewrite Hk.
  apply Finite.Injective_map_NoDup; [| apply seq_NoDup].
  intros a b. apply next_id_inj.
Qed.

(** C1, at a session the code runs: two creations, the deletion of the
    first task, and a third creation.  The store then has two tasks' worth of
    history left but one task: the third creation is given the id todo2,
    which the second task still holds, and the second task is overwritten. *)
Theorem add_todo_after_delete_reuses_id :
  let before :=
    run 0 [(1, AddTodo "a" "A" None 1 None);
           (2, AddTodo "b" "B" None 1 None);
           (3, DeleteTodo "todo1")] [] in
  before = [("todo2", Todo_new 0 "todo2" "b" "B" None 1 [])] /\
  call_tool 0 4 (AddTodo "c" "C" None 1 None) before =
    ([("todo2", Todo_new 0 "todo2" "c" "C" None 1 [])],
     Return "Added todo 'c' with ID: todo2").
Proof. split; reflexivity. Qed.

(** ** Rejected field updates *)

Lemma dict_modify_ext (k : string) (f g : Todo -> Todo) (d : dict) :
  (forall t, f t = g t) -> dict_modify k f d = dict_modify k g d.
Proof.
  intros H. induction d as [| [k' v] r IH]; simpl; [reflexivity |].
  destruct (String.eqb k k'); congruence.
Qed.

Lemma dict_modify_id (k : string) (d : dict) : dict_modify k (fun t => t) d = d.
Proof.
  induction d as [| [k' v] r IH]; simpl; [reflexivity |].
  destruct (String.eqb k k'); congruence.
Qed.

(** A priority argument outside 1..5 on an id of the store: the call raises
    with the title, description and project arguments already assigned, and
    with nothing else touched. *)
Lemma update_todo_invalid_priority (now : datetime) (id' : string)
    (title' description' project' : option string) (p : Z)
    (tags' : option (list string)) (todos : dict) :
  dict_contains id' todos = true ->
  ~ (1 <= p <= 5) ->
  update_todo now id' title' description' project' (Some p) tags' todos =
    (dict_modify id' (apply_early_fields title' description' project') todos,
     Raise (ValueError "Priority must be between 1 and 5")).
Proof.
  intros Hc Hp.
  assert (Hg : negb ((1 <=? p) && (p <=? 5)) = true).
  { destruct (negb ((1 <=? p) && (p <=? 5))) eqn:E; [reflexivity |].
    apply priority_guard in E. contradiction. }
  unfold update_todo, bind at 1, get_todos. rewrite Hc. simpl.
  destruct title', description', project';
    run_tool; rewrite Hg; simpl; rewrite ?dict_modify_modify;
    unfold apply_early_fields; try reflexivity.
  rewrite dict_modify_id. reflexivity.
Qed.

(** With no title, description or project argument the rejected call leaves
    the store as it was. *)
Lemma update_todo_invalid_priority_alone (now : datetime) (id' : string) (p : Z)
    (tags' : option (list string)) (todos : dict) :
  dict_contains id' todos = true ->
  ~ (1 <= p <= 5) ->
  update_todo now id' None None None (Some p) tags' todos =
    (todos, Raise (ValueError "Priority must be between 1 and 5")).
Proof.
  intros Hc Hp. rewrite update_todo_invalid_priority by assumption.
  unfold apply_early_fields. rewrite dict_modify_id. reflexivity.
Qed.

(** The rejected call never touches priority, tags, status or time stamps. *)
Lemma apply_early_fields_keeps (title' description' project' : option string)
    (t : Todo) :
  let t' := apply_early_fields title' description' project' t in
  id t' = id t /\ status t' = status t /\ created_at t' = created_at t /\
  updated_at t' = updated_at t /\ priority t' = priority t /\ tags t' = tags t.
Proof.
  destruct title', description', project'; simpl; repeat split.
Qed.

(** C2, at a call the code accepts: title, description, project and tags
    come with priority 6.  The call raises the priority error, the tags and
    [updated_at] are left alone, and yet the store is not the one the call
    found: title, description and project of the task are the new ones. *)
Theorem update_todo_rejected_priority_mutates :
  let todos := [("todo1", Todo_new 0 "todo1" "a" "b" None 3 [])] in
  update_todo 9 "todo1" (Some "X") (Some "Y") (Some "P") (Some 6) (Some ["z"])
              todos =
    ([("todo1", mkTodo "todo1" "X" "Y" PENDING 0 None (Some "P") 3 [])],
     Raise (ValueError "Priority must be between 1 and 5")) /\
  fst (update_todo 9 "todo1" (Some "X") (Some "Y") (Some "P") (Some 6)
                   (Some ["z"]) todos) <> todos.
Proof. split; [reflexivity | discriminate]. Qed.

(** ** Priorities *)

Lemma priorities_in_range_modify (k : string) (f : Todo -> Todo) (d : dict) :
  (forall t, priority_in_range t -> priority_in_range (f t)) ->
  priorities_in_range d -> priorities_in_range (dict_modify k f d).
Proof.
  intros Hf Hd t Ht.
  destruct (dict_values_modify_In k f d t Ht) as [H | [t0 [H ->]]]; auto.
Qed.

Lemma priorities_in_range_del (k : string) (d : dict) :
  priorities_in_range d -> priorities_in_range (dict_del k d).
Proof.
  unfold priorities_in_range, dict_values.
  induction d as [| [k' v] r IH]; simpl; intros H t Ht; [contradiction |].
  destruct (String.eqb k k'); simpl in Ht.
  - apply H. right. exact Ht.
  - destruct Ht as [Ht | Ht]; [apply H; left; exact Ht |].
    apply IH; [| exact Ht]. intros t' Ht'. apply H. right. exact Ht'.
Qed.

Lemma priorities_in_range_set (k : string) (v : Todo) (d : dict) :
  priority_in_range v -> priorities_in_range d ->
  priorities_in_range (dict_set k v d).
Proof.
  unfold priorities_in_range, dict_values.
  induction d as [| [k' v'] r IH]; simpl; intros Hv H t Ht.
  - destruct Ht as [<- | []]. exact Hv.
  - destruct (String.eqb k k'); simpl in Ht.
    + destruct Ht as [<- | Ht]; [exact Hv | apply H; right; exact Ht].
    + destruct Ht as [Ht | Ht]; [apply H; left; exact Ht |].
      apply IH; auto.
Qed.

Lemma call_tool_priorities_in_range (class_now now : datetime) (c : Call)
    (d : dict) :
  call_priority_ok c ->
  priorities_in_range d ->
  priorities_in_range (fst (call_tool class_now now c d)).
Proof.
  intros Hc Hd.
  destruct c as [t de p pr tg | i s | i | i t de p pr tg]; cbn [call_tool].
  - rewrite add_todo_eq. cbn [fst].
    apply priorities_in_range_set; [exact Hc | exact Hd].
  - unfold update_todo_status, bind at 1, get_todos.
    destruct (dict_contains i d); simpl; [| exact Hd].
    destruct (TodoStatus_of_value s); run_tool; [| exact Hd].
    repeat apply priorities_in_range_modify; auto.
  - unfold delete_todo, bind at 1, get_todos.
    destruct (dict_get i d); run_tool; [| exact Hd].
    apply priorities_in_range_del. exact Hd.
  - unfold update_todo, bind at 1, get_todos.
    destruct (dict_contains i d); simpl; [| exact Hd].
    destruct t, de, p, tg; run_tool;
      (destruct pr as [q |]; run_tool;
       [ destruct (negb ((1 <=? q) && (q <=? 5))) eqn:Hg; run_tool;
         [| apply priority_guard in Hg ] |]);
      repeat (apply priorities_in_range_modify; [intros ? ?; assumption |]);
      auto.
Qed.

(** C3, at a call the code accepts: a creation with priority 6, and one
    with priority 0, each on the empty store.  Either task is stored with the
    priority it came with, outside 1..5. *)
Theorem add_todo_stores_priority_out_of_range :
  (exists t,
     dict_get "todo1" (fst (add_todo 0 "a" "b" None 6 None [])) = Some t /\
     priority t = 6) /\
  (exists t,
     dict_get "todo1" (fst (add_todo 0 "a" "b" None 0 None [])) = Some t /\
     priority t = 0) /\
  ~ priorities_in_range (fst (add_todo 0 "a" "b" None 6 None [])).
Proof.
  split; [| split].
  - eexists. split; reflexivity.
  - eexists. split; reflexivity.
  - intros H.
    specialize (H (Todo_new 0 "todo1" "a" "b" None 6 []) (or_introl eq_refl)).
    unfold priority_in_range in H. simpl in H. lia.
Qed.

(** ** Creation time *)

(** C4, at a session the code runs: the class body ran at time 0, one task
    is created at time 10 and another at time 20.  Both are pending and have
    no [updated_at]; both have [created_at] 0, the time of the class body and
    not the time of either creation. *)
Theorem add_todo_created_at_is_class_time :
  let todos :=
    run 0 [(10, AddTodo "a" "A" None 1 None);
           (20, AddTodo "b" "B" None 1 None)] [] in
  option_map created_at (dict_get "todo1" todos) = Some 0 /\
  option_map created_at (dict_get "todo2" todos) = Some 0 /\
  option_map status (dict_get "todo1" todos) = Some PENDING /\
  option_map status (dict_get "todo2" todos) = Some PENDING /\
  option_map updated_at (dict_get "todo1" todos) = Some None /\
  option_map updated_at (dict_get "todo2" todos) = Some None.
Proof. repeat split. Qed.

(** * Further properties of the tools and resources *)

(** ** More on the dictionary *)

Lemma dict_get_None_iff (k : string) (d : dict) :
  dict_get k d = None <-> ~ In k (dict_keys d).
Proof.
  rewrite <- dict_contains_In. unfold dict_contains.
  destruct (dict_get k d); split; congruence.
Qed.

Lemma dict_get_del_other (k k' : string) (d : dict) :
  k <> k' -> dict_get k' (dict_del k d) = dict_get k' d.
Proof.
  intros Hne. induction d as [| [k0 v] r IH]; simpl; [reflexivity |].
  case_key k k0; simpl.
  - subst k0. case_key k' k; [congruence | reflexivity].
  - rewrite IH. reflexivity.
Qed.

Lemma dict_get_del_same (k : string) (d : dict) :
  dict_wf d -> dict_get k (dict_del k d) = None.
Proof.
  unfold dict_wf, dict_keys.
  induction d as [| [k0 v] r IH]; simpl; intros H; [reflexivity |].
  inversion H as [| x l Hnin Hnd]; subst.
  case_key k k0; simpl.
  - subst k0. apply dict_get_None_iff. exact Hnin.
  - apply String.eqb_neq in E. rewrite E. auto.
Qed.

Lemma filter_keys_absent (k : string) (l : list string) :
  ~ In k l -> filter (fun k' => negb (String.eqb k' k)) l = l.
Proof.
  induction l as [| x r IH]; simpl; intros H; [reflexivity |].
  case_key x k; simpl.
  - exfalso. apply H. left. exact E.
  - rewrite IH; [reflexivity | tauto].
Qed.

Lemma dict_keys_del (k : string) (d : dict) :
  dict_wf d ->
  dict_keys (dict_del k d) = filter (fun k' => negb (String.eqb k' k)) (dict_keys d).
Proof.
  unfold dict_wf, dict_keys.
  induction d as [| [k0 v] r IH]; simpl; intros H; [reflexivity |].
  inversion H as [| x l Hnin Hnd]; subst.
  rewrite (String.eqb_sym k0 k).
  case_key k k0; simpl.
  - subst k0. symmetry. apply filter_keys_absent. exact Hnin.
  - rewrite IH by assumption. reflexivity.
Qed.

Lemma dict_len_del (k : string) (d : dict) :
  dict_contains k d = true -> S (dict_len (dict_del k d)) = dict_len d.
Proof.
  unfold dict_contains, dict_len.
  induction d as [| [k0 v] r IH]; simpl; [discriminate |].
  destruct (String.eqb k k0); simpl; [reflexivity |].
  intros H. rewrite IH by assumption. reflexivity.
Qed.

Lemma dict_get_set_other (k k' : string) (v : Todo) (d : dict) :
  k <> k' -> dict_get k' (dict_set k v d) = dict_get k' d.
Proof.
  intros Hne. induction d as [| [k0 v0] r IH]; simpl.
  - case_key k' k; [congruence | reflexivity].
  - case_key k k0; simpl.
    + subst k0. case_key k' k; [congruence | reflexivity].
    + rewrite IH. reflexivity.
Qed.

Lemma dict_set_fresh (k : string) (v : Todo) (d : dict) :
  dict_contains k d = false -> dict_set k v d = (d ++ [(k, v)])%list.
Proof.
  unfold dict_contains.
  induction d as [| [k0 v0] r IH]; simpl; [reflexivity |].
  destruct (String.eqb k k0); [discriminate |].
  intros H. rewrite IH by assumption. reflexivity.
Qed.

Lemma dict_set_same_value (k : string) (v : Todo) (d : dict) :
  dict_get k d = Some v -> dict_set k v d = d.
Proof.
  induction d as [| [k0 v0] r IH]; simpl; [discriminate |].
  destruct (String.eqb k k0); intros H.
  - congruence.
  - rewrite IH by assumption. reflexivity.
Qed.

(** ** Calls on an id the store does not have *)

Lemma get_contains_false (k : string) (d : dict) :
  dict_contains k d = false -> dict_get k d = None.
Proof. unfold dict_contains. destruct (dict_get k d); congruence. Qed.

(** X1: each of the three tools that take an id, and the item resource,
    raises the not-found error naming the id when the store has no such id,
    and leaves the store as it was. *)
Theorem missing_id_raises_not_found :
  forall (strftime : datetime -> string) (now : datetime) (id' : string)
         (todos : dict),
    dict_contains id' todos = false ->
    (forall status',
        update_todo_status now id' status' todos =
          (todos, Raise (ValueError ("Todo not found: " ++ id')))) /\
    delete_todo id' todos =
      (todos, Raise (ValueError ("Todo not found: " ++ id'))) /\
    (forall title' description' project' priority' tags',
        update_todo now id' title' description' project' priority' tags' todos =
          (todos, Raise (ValueError ("Todo not found: " ++ id')))) /\
    get_todo_item strftime id' todos =
      (todos, Raise (ValueError ("Todo not found: " ++ id'))).
Proof.
  intros strftime now id' todos H.
  pose proof (get_contains_false _ _ H) as Hg.
  repeat split.
  - intros status'. unfold update_todo_status, bind, get_todos.
    rewrite H. reflexivity.
  - unfold delete_todo, bind, get_todos. rewrite Hg. reflexivity.
  - intros. apply update_todo_not_found. exact H.
  - unfold get_todo_item, bind, get_todos. rewrite Hg. reflexivity.
Qed.

Lemma missing_id_raises_not_found_witness :
  delete_todo "todo9" [("todo1", Todo_new 0 "todo1" "a" "b" None 3 [])] =
    ([("todo1", Todo_new 0 "todo1" "a" "b" None 3 [])],
     Raise (ValueError "Todo not found: todo9")).
Proof.
  apply (missing_id_raises_not_found (fun _ => "") 0 "todo9"
           [("todo1", Todo_new 0 "todo1" "a" "b" None 3 [])]).
  reflexivity.
Defined.

(** ** Deletion *)

Lemma delete_todo_eq (id' : string) (todos : dict) (t : Todo) :
  dict_get id' todos = Some t ->
  delete_todo id' todos =
    (dict_del id' todos,
     Return ("Deleted todo '" ++ title t ++ "' (ID: " ++ id' ++ ")")).
Proof.
  intros H. unfold delete_todo, bind, get_todos. rewrite H. reflexivity.
Qed.

(** X2: deleting an id of the store returns the confirmation with the title
    and the id, takes the id out of the store, leaves every other task and
    the order of the remaining ids as they were, and makes the store one
    task shorter. *)
Theorem delete_todo_removes_only_that_id :
  forall (id' : string) (todos : dict) (t : Todo),
    dict_wf todos ->
    dict_get id' todos = Some t ->
    let todos' := fst (delete_todo id' todos) in
    snd (delete_todo id' todos) =
      Return ("Deleted todo '" ++ title t ++ "' (ID: " ++ id' ++ ")") /\
    dict_get id' todos' = None /\
    (forall k, k <> id' -> dict_get k todos' = dict_get k todos) /\
    dict_keys todos' =
      filter (fun k => negb (String.eqb k id')) (dict_keys todos) /\
    S (dict_len todos') = dict_len todos.
Proof.
  intros id' todos t Hwf Hget. rewrite (delete_todo_eq id' todos t Hget).
  cbn [fst snd]. repeat split.
  - apply dict_get_del_same. exact Hwf.
  - intros k Hk. apply dict_get_del_other. congruence.
  - apply dict_keys_del. exact Hwf.
  - apply dict_len_del. unfold dict_contains. rewrite Hget. reflexivity.
Qed.

Lemma delete_todo_removes_only_that_id_witness :
  let todos := [("todo1", Todo_new 0 "todo1" "a" "b" None 3 []);
                ("todo2", Todo_new 0 "todo2" "c" "d" None 1 [])] in
  let todos' := fst (delete_todo "todo1" todos) in
  snd (delete_todo "todo1" todos) = Return "Deleted todo 'a' (ID: todo1)" /\
  dict_get "todo1" todos' = None /\
  (forall k, k <> "todo1" -> dict_get k todos' = dict_get k todos) /\
  dict_keys todos' =
    filter (fun k => negb (String.eqb k "todo1")) (dict_keys todos) /\
  S (dict_len todos') = dict_len todos.
Proof.
  apply (delete_todo_removes_only_that_id "todo1"
           [("todo1", Todo_new 0 "todo1" "a" "b" None 3 []);
            ("todo2", Todo_new 0 "todo2" "c" "d" None 1 [])]
           (Todo_new 0 "todo1" "a" "b" None 3 [])).
  - repeat constructor; simpl; intuition discriminate.
  - reflexivity.
Defined.

(** X3: once an id is deleted, the item resource, a second deletion and
    both updates raise the not-found error for it. *)
Theorem deleted_id_is_not_found :
  forall (strftime : datetime -> string) (now : datetime) (id' : string)
         (todos : dict),
    dict_wf todos ->
    dict_contains id' todos = true ->
    let todos' := fst (delete_todo id' todos) in
    snd (get_todo_item strftime id' todos') =
      Raise (ValueError ("Todo not found: " ++ id')) /\
    snd (delete_todo id' todos') =
      Raise (ValueError ("Todo not found: " ++ id')) /\
    (forall status',
        snd (update_todo_status now id' status' todos') =
          Raise (ValueError ("Todo not found: " ++ id'))) /\
    (forall title' description' project' priority' tags',
        snd (update_todo now id' title' description' project' priority' tags'
                         todos') =
          Raise (ValueError ("Todo not found: " ++ id'))).
Proof.
  intros strftime now id' todos Hwf Hc.
  destruct (dict_contains_get _ _ Hc) as [t Hget].
  rewrite (delete_todo_eq id' todos t Hget). cbn [fst].
  assert (Hgone : dict_contains id' (dict_del id' todos) = false).
  { unfold dict_contains. rewrite dict_get_del_same by assumption. reflexivity. }
  pose proof (get_contains_false _ _ Hgone) as Hnone.
  repeat split.
  - unfold get_todo_item, bind, get_todos. rewrite Hnone. reflexivity.
  - unfold delete_todo, bind, get_todos. rewrite Hnone. reflexivity.
  - intros status'. unfold update_todo_status, bind, get_todos.
    rewrite Hgone. reflexivity.
  - intros. rewrite update_todo_not_found by assumption. reflexivity.
Qed.

Lemma deleted_id_is_not_found_witness :
  snd (get_todo_item (fun _ => "") "todo1"
         (fst (delete_todo "todo1"
                 [("todo1", Todo_new 0 "todo1" "a" "b" None 3 [])]))) =
    Raise (ValueError "Todo not found: todo1").
Proof.
  apply (deleted_id_is_not_found (fun _ => "") 0 "todo1"
           [("todo1", Todo_new 0 "todo1" "a" "b" None 3 [])]).
  - repeat constructor; simpl; tauto.
  - reflexivity.
Defined.

(** ** Successful updates *)

(** X4: a status value of the enumeration is accepted on any id of the
    store, whatever status the task has: the call returns the confirmation,
    the task gets that status and the time of the call as [updated_at] and
    keeps its other fields, and the other tasks and the order of the ids
    are as before. *)
Theorem update_todo_status_sets_status :
  forall (now : datetime) (id' : string) (s : TodoStatus) (todos : dict)
         (t : Todo),
    dict_get id' todos = Some t ->
    let r := update_todo_status now id' (TodoStatus_value s) todos in
    snd r =
      Return ("Updated todo '" ++ title t ++ "' status to " ++ TodoStatus_value s) /\
    dict_get id' (fst r) =
      Some (mkTodo (id t) (title t) (description t) s (created_at t) (Some now)
                   (project t) (priority t) (tags t)) /\
    (forall k, k <> id' -> dict_get k (fst r) = dict_get k todos) /\
    dict_keys (fst r) = dict_keys todos.
Proof.
  intros now id' s todos t Hget.
  rewrite (update_todo_status_valid now id' s todos t Hget). cbn [fst snd].
  repeat split.
  - rewrite dict_get_modify_same, Hget. reflexivity.
  - intros k Hk. apply dict_get_modify_other. congruence.
  - apply dict_keys_modify.
Qed.

Lemma update_todo_status_sets_status_witness :
  let todos :=
    [("todo1", set_status COMPLETED (Todo_new 0 "todo1" "a" "b" None 3 []))] in
  let r := update_todo_status 7 "todo1" (TodoStatus_value PENDING) todos in
  snd r = Return ("Updated todo '" ++ "a" ++ "' status to " ++ "pending") /\
  dict_get "todo1" (fst r) =
    Some (mkTodo "todo1" "a" "b" PENDING 0 (Some 7) None 3 []) /\
  (forall k, k <> "todo1" -> dict_get k (fst r) = dict_get k todos) /\
  dict_keys (fst r) = dict_keys todos.
Proof.
  apply (update_todo_status_sets_status 7 "todo1" PENDING
           [("todo1", set_status COMPLETED (Todo_new 0 "todo1" "a" "b" None 3 []))]
           (set_status COMPLETED (Todo_new 0 "todo1" "a" "b" None 3 []))).
  reflexivity.
Defined.

(** X5: a call of [update_todo] on an id of the store whose priority
    argument is absent or in 1..5 returns; each field with an argument takes
    the argument, each field without one keeps its value, [updated_at] is the
    time of the call, and id, status and [created_at] are not touched; the
    other tasks and the order of the ids are as before. *)
Theorem update_todo_overwrites_given_fields :
  forall (now : datetime) (id' : string)
         (title' description' project' : option string) (priority' : option Z)
         (tags' : option (list string)) (todos : dict) (t : Todo),
    dict_get id' todos = Some t ->
    priority_arg_ok priority' ->
    exists todos' t',
      update_todo now id' title' description' project' priority' tags' todos =
        (todos', Return ("Updated todo '" ++ title t' ++ "' (ID: " ++ id' ++ ")")) /\
      dict_get id' todos' = Some t' /\
      title t' = updated_field title' (title t) /\
      description t' = updated_field description' (description t) /\
      project t' = match project' with Some v => Some v | None => project t end /\
      priority t' = updated_field priority' (priority t) /\
      tags t' = updated_field tags' (tags t) /\
      updated_at t' = Some now /\
      id t' = id t /\ status t' = status t /\ created_at t' = created_at t /\
      (forall k, k <> id' -> dict_get k todos' = dict_get k todos) /\
      dict_keys todos' = dict_keys todos.
Proof.
  intros now id' ti de pr pri tg todos t Hget Hp.
  destruct (update_todo_ok now id' ti de pr pri tg todos t Hget Hp)
    as [d [Hrun [Hget' [Hkeys Hother]]]].
  exists d, (apply_fields now ti de pr pri tg t).
  split; [exact Hrun |]. split; [exact Hget' |].
  destruct ti, de, pr, pri, tg; repeat split; auto.
Qed.

Lemma update_todo_overwrites_given_fields_witness :
  exists todos' t',
    update_todo 9 "todo1" (Some "X") None None (Some 5) None
                [("todo1", Todo_new 0 "todo1" "a" "b" None 3 [])] =
      (todos', Return ("Updated todo '" ++ title t' ++ "' (ID: " ++ "todo1" ++ ")")) /\
    dict_get "todo1" todos' = Some t' /\
    title t' = updated_field (Some "X") "a" /\
    description t' = updated_field None "b" /\
    project t' = None /\
    priority t' = updated_field (Some 5) 3 /\
    tags t' = updated_field None [] /\
    updated_at t' = Some 9 /\
    id t' = "todo1" /\ status t' = PENDING /\ created_at t' = 0 /\
    (forall k, k <> "todo1" ->
       dict_get k todos' =
       dict_get k [("todo1", Todo_new 0 "todo1" "a" "b" None 3 [])]) /\
    dict_keys todos' = dict_keys [("todo1", Todo_new 0 "todo1" "a" "b" None 3 [])].
Proof.
  apply (update_todo_overwrites_given_fields 9 "todo1" (Some "X") None None
           (Some 5) None [("todo1", Todo_new 0 "todo1" "a" "b" None 3 [])]
           (Todo_new 0 "todo1" "a" "b" None 3 [])).
  - reflexivity.
  - intros p Hp. inversion Hp. lia.
Defined.

(** ** What any call of [update_todo] does to the store *)

(** The store after [update_todo] is the store before with one function
    applied to the addressed object: none, the assignments made up to the
    priority guard, or all of them. *)
Lemma update_todo_store (now : datetime) (id' : string)
    (title' description' project' : option string) (priority' : option Z)
    (tags' : option (list string)) (todos : dict) :
  let todos' :=
    fst (update_todo now id' title' description' project' priority' tags' todos) in
  todos' = todos \/
  todos' = dict_modify id' (apply_early_fields title' description' project') todos \/
  todos' = dict_modify id'
             (apply_fields now title' description' project' priority' tags') todos.
Proof.
  cbv zeta.
  destruct (dict_contains id' todos) eqn:Hc.
  2:{ left. rewrite update_todo_not_found by assumption. reflexivity. }
  assert (Hcase : priority_arg_ok priority' \/
                  exists p, priority' = Some p /\ ~ (1 <= p <= 5)).
  { destruct priority' as [p |].
    - destruct (Z_le_dec 1 p) as [H1 |]; [destruct (Z_le_dec p 5) as [H5 |] |].
      + left. intros q Hq. inversion Hq. subst. lia.
      + right. exists p. split; [reflexivity | lia].
      + right. exists p. split; [reflexivity | lia].
    - left. intros q Hq. discriminate. }
  destruct Hcase as [Hok | [p [-> Hbad]]].
  - right. right.
    assert (Hg : match priority' with
                 | Some p => negb ((1 <=? p) && (p <=? 5)) = false
                 | None => True
                 end).
    { destruct priority' as [p |]; [| exact I].
      apply priority_guard, Hok. reflexivity. }
    unfold update_todo, bind at 1, get_todos. rewrite Hc. simpl.
    destruct title', description', project', priority', tags';
      run_tool; rewrite ?Hg; simpl; rewrite ?dict_modify_modify; reflexivity.
  - right. left. rewrite update_todo_invalid_priority by assumption. reflexivity.
Qed.






(** X7: a priority argument outside 1..5 on an id of the store is rejected
    with the priority error, and every task of the store keeps its priority,
    tags, status, [updated_at], [created_at] and id; the ids and their order
    are as before. *)
Theorem update_todo_rejected_priority_keeps_priority :
  forall (now : datetime) (id' : string)
         (title' description' project' : option string) (p : Z)
         (tags' : option (list string)) (todos : dict),
    dict_contains id' todos = true ->
    ~ (1 <= p <= 5) ->
    let r := update_todo now id' title' description' project' (Some p) tags'
                         todos in
    snd r = Raise (ValueError "Priority must be between 1 and 5") /\
    dict_keys (fst r) = dict_keys todos /\
    (forall k t, dict_get k todos = Some t ->
       exists t', dict_get k (fst r) = Some t' /\
         priority t' = priority t /\ tags t' = tags t /\ status t' = status t /\
         updated_at t' = updated_at t /\ created_at t' = created_at t /\
         id t' = id t).
Proof.
  intros now id' ti de pr p tg todos Hc Hp.
  rewrite (update_todo_invalid_priority now id' ti de pr p tg todos Hc Hp).
  cbn [fst snd]. split; [reflexivity |]. split; [apply dict_keys_modify |].
  intros k t Hget.
  case_key id' k.
  - subst k. rewrite dict_get_modify_same, Hget. simpl.
    eexists. split; [reflexivity |].
    destruct (apply_early_fields_keeps ti de pr t) as [H1 [H2 [H3 [H4 [H5 H6]]]]].
    repeat split; assumption.
  - rewrite dict_get_modify_other by assumption.
    exists t. repeat split. exact Hget.
Qed.

Lemma update_todo_rejected_priority_keeps_priority_witness :
  snd (update_todo 9 "todo1" (Some "X") None None (Some 0) (Some ["z"])
                   [("todo1", Todo_new 0 "todo1" "a" "b" None 3 [])]) =
    Raise (ValueError "Priority must be between 1 and 5").
Proof.
  apply (update_todo_rejected_priority_keeps_priority 9 "todo1" (Some "X") None
           None 0 (Some ["z"]) [("todo1", Todo_new 0 "todo1" "a" "b" None 3 [])]).
  - reflexivity.
  - lia.
Defined.

(** ** Invariants of the store *)

Lemma In_dict_modify (k k0 : string) (f : Todo -> Todo) (d : dict) (t : Todo) :
  In (k, t) (dict_modify k0 f d) ->
  exists t0, In (k, t0) d /\ (t = t0 \/ t = f t0).
Proof.
  induction d as [| [k' v] r IH]; simpl; [tauto |].
  destruct (String.eqb k0 k'); simpl.
  - intros [H | H].
    + inversion H; subst. exists v. auto.
    + exists t. auto.
  - intros [H | H].
    + inversion H; subst. exists t. auto.
    + destruct (IH H) as [t0 [Hin Ht]]. exists t0. auto.
Qed.

Lemma In_dict_del (k k0 : string) (d : dict) (t : Todo) :
  In (k, t) (dict_del k0 d) -> In (k, t) d.
Proof.
  induction d as [| [k' v] r IH]; simpl; [tauto |].
  destruct (String.eqb k0 k'); simpl; intuition.
Qed.

Lemma In_dict_set (k k0 : string) (v : Todo) (d : dict) (t : Todo) :
  In (k, t) (dict_set k0 v d) -> In (k, t) d \/ (k = k0 /\ t = v).
Proof.
  induction d as [| [k' v'] r IH]; simpl.
  - intros [H | []]. inversion H. auto.
  - case_key k0 k'; simpl.
    + intros [H | H]; [inversion H; subst; auto | auto].
    + intros [H | H]; [auto |]. destruct (IH H); auto.
Qed.

Lemma store_inv_modify (k : string) (f : Todo -> Todo) (d : dict) :
  (forall t, id (f t) = id t) -> store_inv d -> store_inv (dict_modify k f d).
Proof.
  intros Hf [Hwf Hid]. split; [apply dict_wf_modify; exact Hwf |].
  intros k' t Hin.
  destruct (In_dict_modify _ _ _ _ _ Hin) as [t0 [Hin0 [-> | ->]]];
    [| rewrite Hf]; apply Hid; exact Hin0.
Qed.

Lemma store_inv_del (k : string) (d : dict) :
  store_inv d -> store_inv (dict_del k d).
Proof.
  intros [Hwf Hid]. split; [apply dict_wf_del; exact Hwf |].
  intros k' t Hin. apply Hid. exact (In_dict_del _ _ _ _ Hin).
Qed.

Lemma store_inv_set (k : string) (v : Todo) (d : dict) :
  id v = k -> store_inv d -> store_inv (dict_set k v d).
Proof.
  intros Hv [Hwf Hid]. split; [apply dict_wf_set; exact Hwf |].
  intros k' t Hin.
  destruct (In_dict_set _ _ _ _ _ Hin) as [H | [-> ->]]; [apply Hid |]; assumption.
Qed.

Lemma apply_fields_keeps (now : datetime)
    (title' description' project' : option string) (priority' : option Z)
    (tags' : option (list string)) (t : Todo) :
  let t' := apply_fields now title' description' project' priority' tags' t in
  id t' = id t /\ status t' = status t /\ created_at t' = created_at t.
Proof.
  destruct title', description', project', priority', tags'; repeat split.
Qed.

Lemma update_todo_status_store (now : datetime) (id' status' : string) (d : dict) :
  fst (update_todo_status now id' status' d) = d \/
  exists s, fst (update_todo_status now id' status' d) =
            dict_modify id' (fun t => set_updated_at (Some now) (set_status s t)) d.
Proof.
  destruct (dict_contains id' d) eqn:Hc.
  - destruct (TodoStatus_of_value status') as [s |] eqn:Hs.
    + apply TodoStatus_of_value_Some in Hs. subst status'.
      destruct (dict_contains_get _ _ Hc) as [t Ht].
      right. exists s. rewrite (update_todo_status_valid now id' s d t Ht).
      reflexivity.
    + left. unfold update_todo_status, bind, get_todos. rewrite Hc. simpl.
      rewrite Hs. reflexivity.
  - left. unfold update_todo_status, bind, get_todos. rewrite Hc. reflexivity.
Qed.

Lemma delete_todo_store (id' : string) (d : dict) :
  fst (delete_todo id' d) = d \/ fst (delete_todo id' d) = dict_del id' d.
Proof.
  destruct (dict_get id' d) as [t |] eqn:E.
  - right. rewrite (delete_todo_eq id' d t E). reflexivity.
  - left. unfold delete_todo, bind, get_todos. rewrite E. reflexivity.
Qed.

Lemma call_tool_store_inv (class_now now : datetime) (c : Call) (d : dict) :
  store_inv d -> store_inv (fst (call_tool class_now now c d)).
Proof.
  intros Hd.
  destruct c as [t de p pr tg | i s | i | i t de p pr tg]; cbn [call_tool].
  - rewrite add_todo_eq. cbn [fst]. apply store_inv_set; [reflexivity | exact Hd].
  - destruct (update_todo_status_store now i s d) as [-> | [s' ->]];
      [exact Hd | apply store_inv_modify; [reflexivity | exact Hd]].
  - destruct (delete_todo_store i d) as [-> | ->];
      [exact Hd | apply store_inv_del; exact Hd].
  - destruct (update_todo_store now i t de p pr tg d) as [H | [H | H]];
      rewrite H; [exact Hd | |]; apply store_inv_modify; try exact Hd; intros t0.
    + apply (apply_early_fields_keeps t de p t0).
    + apply (apply_fields_keeps now t de p pr tg t0).
Qed.

Lemma run_store_inv (class_now : datetime) (cs : list (datetime * Call)) :
  forall d, store_inv d -> store_inv (run class_now cs d).
Proof.
  induction cs as [| [now c] r IH]; intros d Hd; simpl; [exact Hd |].
  apply IH, call_tool_store_inv, Hd.
Qed.

Lemma store_inv_empty : store_inv [].
Proof. split; [constructor | intros k t []]. Qed.

Lemma store_inv_seeded (class_now : datetime) : store_inv (seeded_todos class_now).
Proof.
  split.
  - repeat constructor; simpl; intuition discriminate.
  - intros k t Hin. simpl in Hin.
    destruct Hin as [H | [H | [H | []]]]; inversion H; reflexivity.
Qed.

(** X8: in every store a session of tool calls leaves, from the empty
    store or from the seeded one, failed calls included, no id occurs twice
    and every task is stored under its own [id]. *)
Theorem reachable_store_ids_consistent :
  forall (class_now : datetime) (cs : list (datetime * Call)),
    store_inv (run class_now cs []) /\
    store_inv (run class_now cs (seeded_todos class_now)).
Proof.
  intros class_now cs. split; apply run_store_inv.
  - apply store_inv_empty.
  - apply store_inv_seeded.
Qed.

Lemma created_at_all_modify (class_now : datetime) (k : string)
    (f : Todo -> Todo) (d : dict) :
  (forall t, created_at (f t) = created_at t) ->
  created_at_all class_now d -> created_at_all class_now (dict_modify k f d).
Proof.
  intros Hf Hd t Ht.
  destruct (dict_values_modify_In k f d t Ht) as [H | [t0 [H ->]]];
    [| rewrite Hf]; apply Hd; exact H.
Qed.

Lemma In_values_del (k : string) (d : dict) (t : Todo) :
  In t (dict_values (dict_del k d)) -> In t (dict_values d).
Proof.
  unfold dict_values.
  induction d as [| [k' v] r IH]; simpl; [tauto |].
  destruct (String.eqb k k'); simpl; intuition.
Qed.

Lemma In_values_set (k : string) (v : Todo) (d : dict) (t : Todo) :
  In t (dict_values (dict_set k v d)) -> In t (dict_values d) \/ t = v.
Proof.
  unfold dict_values.
  induction d as [| [k' v'] r IH]; simpl.
  - intros [H | []]. auto.
  - destruct (String.eqb k k'); simpl.
    + intros [H | H]; auto.
    + intros [H | H]; [auto |]. destruct (IH H); auto.
Qed.

Lemma call_tool_created_at_all (class_now now : datetime) (c : Call) (d : dict) :
  created_at_all class_now d ->
  created_at_all class_now (fst (call_tool class_now now c d)).
Proof.
  intros Hd.
  destruct c as [t de p pr tg | i s | i | i t de p pr tg]; cbn [call_tool].
  - rewrite add_todo_eq. cbn [fst]. intros t0 Ht0.
    destruct (In_values_set _ _ _ _ Ht0) as [H | ->]; [apply Hd; exact H |].
    reflexivity.
  - destruct (update_todo_status_store now i s d) as [-> | [s' ->]];
      [exact Hd | apply created_at_all_modify; [reflexivity | exact Hd]].
  - destruct (delete_todo_store i d) as [-> | ->]; [exact Hd |].
    intros t0 Ht0. apply Hd. exact (In_values_del _ _ _ Ht0).
  - destruct (update_todo_store now i t de p pr tg d) as [H | [H | H]];
      rewrite H; [exact Hd | |]; apply created_at_all_modify; try exact Hd;
      intros t0.
    + apply (apply_early_fields_keeps t de p t0).
    + apply (apply_fields_keeps now t de p pr tg t0).
Qed.

Lemma run_created_at_all (class_now : datetime) (cs : list (datetime * Call)) :
  forall d, created_at_all class_now d -> created_at_all class_now (run class_now cs d).
Proof.
  induction cs as [| [now c] r IH]; intros d Hd; simpl; [exact Hd |].
  apply IH, call_tool_created_at_all, Hd.
Qed.

(** X9: no tool sets or changes [created_at]: in every store a session of
    tool calls leaves, from the empty store or from the seeded one, every
    task has the one [created_at] the class body computed, whenever the task
    was created. *)
Theorem reachable_store_created_at_constant :
  forall (class_now : datetime) (cs : list (datetime * Call)) (t : Todo),
    (In t (dict_values (run class_now cs [])) -> created_at t = class_now) /\
    (In t (dict_values (run class_now cs (seeded_todos class_now))) ->
     created_at t = class_now).
Proof.
  intros class_now cs t. split; apply run_created_at_all.
  - intros t0 [].
  - intros t0 Ht0. simpl in Ht0.
    destruct Ht0 as [<- | [<- | [<- | []]]]; reflexivity.
Qed.

Lemma reachable_store_created_at_constant_witness :
  created_at (Todo_new 5 "todo1" "a" "A" None 1 []) = 5.
Proof.
  apply (proj1 (reachable_store_created_at_constant 5
                  [(10, AddTodo "a" "A" None 1 None)]
                  (Todo_new 5 "todo1" "a" "A" None 1 []))).
  simpl. left. reflexivity.
Defined.

(** ** Creation in a store without gaps *)

Lemma first_ids_fresh (d : dict) :
  keys_are_first_ids d -> dict_contains (next_id (dict_len d)) d = false.
Proof.
  intros H.
  destruct (dict_contains (next_id (dict_len d)) d) eqn:E; [| reflexivity].
  apply dict_contains_In in E. rewrite H in E.
  apply in_map_iff in E. destruct E as [i [Hi Hin]].
  apply next_id_inj in Hi. apply in_seq in Hin. lia.
Qed.

(** X10: in a store whose ids are todo1 .. todoN in order, as after any number
    of creations and no deletion, [add_todo] stores the new task under
    todo(N+1) at the end of the store and leaves every entry the store had
    where and as it was. *)
Theorem add_todo_appends_without_gaps :
  forall (class_now : datetime) (title' description' : string)
         (project' : option string) (priority' : Z)
         (tags' : option (list string)) (todos : dict),
    keys_are_first_ids todos ->
    add_todo class_now title' description' project' priority' tags' todos =
      ((todos ++
         [(next_id (dict_len todos),
           Todo_new class_now (next_id (dict_len todos)) title' description'
                    project' priority'
                    (match tags' with Some l => l | None => [] end))])%list,
       Return ("Added todo '" ++ title' ++ "' with ID: "
                 ++ next_id (dict_len todos))).
Proof.
  intros class_now ti de pr pri tg todos H.
  rewrite add_todo_eq, dict_set_fresh by (apply first_ids_fresh; exact H).
  destruct tg as [[| x r] |]; reflexivity.
Qed.

Lemma add_todo_appends_without_gaps_witness :
  add_todo 0 "c" "C" None 2 (Some ["x"]) (seeded_todos 0) =
    ((seeded_todos 0 ++
        [("todo4", Todo_new 0 "todo4" "c" "C" None 2 ["x"])])%list,
     Return "Added todo 'c' with ID: todo4").
Proof.
  apply (add_todo_appends_without_gaps 0 "c" "C" None 2 (Some ["x"])
           (seeded_todos 0)).
  reflexivity.
Defined.

(** X11: whatever the store, [add_todo] returns a confirmation that names
    an id, and the task then stored under that id carries the id, the title,
    description, project and priority of the call, its tags (none when the
    argument is absent), the status pending and no [updated_at]; no task
    under another id is touched. *)
Theorem add_todo_then_lookup :
  forall (class_now : datetime) (title' description' : string)
         (project' : option string) (priority' : Z)
         (tags' : option (list string)) (todos : dict),
    exists k t,
      snd (add_todo class_now title' description' project' priority' tags' todos)
        = Return ("Added todo '" ++ title' ++ "' with ID: " ++ k) /\
      dict_get k
        (fst (add_todo class_now title' description' project' priority' tags'
                       todos)) = Some t /\
      id t = k /\ title t = title' /\ description t = description' /\
      project t = project' /\ priority t = priority' /\
      tags t = match tags' with Some l => l | None => [] end /\
      status t = PENDING /\ updated_at t = None /\
      (forall k', k' <> k ->
         dict_get k'
           (fst (add_todo class_now title' description' project' priority' tags'
                          todos)) = dict_get k' todos).
Proof.
  intros class_now ti de pr pri tg todos.
  rewrite add_todo_eq. cbn [fst snd].
  eexists. eexists. split; [reflexivity |].
  split; [apply dict_get_set_same |].
  repeat split.
  - destruct tg as [[| x r] |]; reflexivity.
  - intros k' Hk'. apply dict_get_set_other. congruence.
Qed.

(** X12: in the process as [__main__] starts it, with the three example
    todos seeded, any number of creations gives the ids todo4, todo5, ...
    after todo1, todo2, todo3: all ids are distinct and no task is
    overwritten. *)
Theorem creations_after_seed_distinct_ids :
  forall (class_now : datetime) (cs : list (datetime * Call)),
    Forall is_add cs ->
    dict_keys (run class_now cs (seeded_todos class_now)) =
      map next_id (seq 0 (3 + List.length cs)) /\
    NoDup (dict_keys (run class_now cs (seeded_todos class_now))) /\
    dict_len (run class_now cs (seeded_todos class_now)) = (3 + List.length cs)%nat.
Proof.
  intros class_now cs H.
  destruct (run_adds_first_ids class_now cs H (seeded_todos class_now) eq_refl)
    as [Hk Hl].
  change (dict_len (seeded_todos class_now)) with 3%nat in Hl.
  unfold keys_are_first_ids in Hk. rewrite Hl in Hk.
  split; [exact Hk |]. split; [| exact Hl]. rewrite Hk.
  apply Finite.Injective_map_NoDup; [| apply seq_NoDup].
  intros a b. apply next_id_inj.
Qed.

Lemma creations_after_seed_distinct_ids_witness :
  dict_keys (run 0 [(1, AddTodo "c" "C" None 2 None)] (seeded_todos 0)) =
    map next_id (seq 0 (3 + 1)).
Proof.
  apply (creations_after_seed_distinct_ids 0 [(1, AddTodo "c" "C" None 2 None)]).
  repeat constructor.
Defined.

Lemma add_todo_then_lookup_witness :
  exists k t,
    snd (add_todo 0 "a" "b" None 3 None []) =
      Return ("Added todo '" ++ "a" ++ "' with ID: " ++ k) /\
    dict_get k (fst (add_todo 0 "a" "b" None 3 None [])) = Some t /\
    id t = k /\ title t = "a" /\ description t = "b" /\
    project t = None /\ priority t = 3 /\ tags t = [] /\
    status t = PENDING /\ updated_at t = None /\
    (forall k', k' <> k ->
       dict_get k' (fst (add_todo 0 "a" "b" None 3 None [])) = dict_get k' []).
Proof.
  exact (add_todo_then_lookup 0 "a" "b" None 3 None []).
Defined.

(** ** The status enumeration *)

(** X13: [TodoStatus(v)] gives back the member whose value [v] is, accepts
    the three values and nothing else, and different members have different
    values. *)
Theorem TodoStatus_value_round_trip :
  (forall s, TodoStatus_of_value (TodoStatus_value s) = Some s) /\
  (forall v s, TodoStatus_of_value v = Some s -> TodoStatus_value s = v) /\
  (forall v, TodoStatus_of_value v = None <->
             v <> "pending" /\ v <> "in_progress" /\ v <> "completed") /\
  (forall a b, TodoStatus_value a = TodoStatus_value b -> a = b).
Proof.
  split; [| split; [| split]].
  - intros s. apply TodoStatus_of_value_Some. reflexivity.
  - intros v s H. apply TodoStatus_of_value_Some. exact H.
  - intros v. split.
    + intros H. repeat split; intros ->; discriminate H.
    + intros [H1 [H2 H3]]. apply TodoStatus_of_value_None; assumption.
  - intros a b H. destruct a, b; (reflexivity || discriminate H).
Qed.

Lemma TodoStatus_value_round_trip_witness :
  TodoStatus_value IN_PROGRESS = "in_progress".
Proof.
  apply (proj1 (proj2 TodoStatus_value_round_trip) "in_progress" IN_PROGRESS).
  reflexivity.
Defined.

(** ** More on the summary prompt *)

Lemma filter_none {A} (f : A -> bool) (l : list A) :
  (forall x, f x = false) -> filter f l = [].
Proof.
  intros H. induction l as [| x r IH]; simpl; [reflexivity |].
  rewrite H. exact IH.
Qed.

(** X14: a status filter that is neither "all" nor the value of a status is
    not rejected: [summarize_todos] selects no task and returns the text it
    returns for the empty store. *)
Theorem summarize_todos_unknown_status :
  forall (status' : string) (project' : option string) (todos : dict),
    status' <> "all" ->
    status' <> "pending" -> status' <> "in_progress" -> status' <> "completed" ->
    summarize_filtered status' project' todos = [] /\
    summarize_todos status' project' todos = summarize_todos status' project' [].
Proof.
  intros status' project' todos Hall H1 H2 H3.
  assert (Hempty : summarize_filtered status' project' todos = []).
  { rewrite summarize_filtered_selection. apply filter_none.
    intros t. unfold summary_selected.
    apply String.eqb_neq in Hall. rewrite Hall. simpl.
    replace (String.eqb (TodoStatus_value (status t)) status') with false;
      [reflexivity |].
    symmetry. apply String.eqb_neq. destruct (status t); simpl; congruence. }
  split; [exact Hempty |].
  unfold summarize_todos. rewrite Hempty.
  replace (summarize_filtered status' project' []) with (@nil Todo);
    [reflexivity |].
  rewrite summarize_filtered_selection. reflexivity.
Qed.

Lemma summarize_todos_unknown_status_witness :
  summarize_filtered "done" None
    [("todo1", Todo_new 0 "todo1" "a" "b" None 3 [])] = [].
Proof.
  apply (summarize_todos_unknown_status "done" None
           [("todo1", Todo_new 0 "todo1" "a" "b" None 3 [])]);
    discriminate.
Defined.

(** ** More on the suggestion prompt *)

(** X15: when the store has a task that is not completed, the text
    [suggest_next_todo] returns is the list text, and the task of its first
    line is a task of the store that is not completed and that no such task
    exceeds in priority. *)
Theorem suggest_first_has_highest_priority :
  forall (todos : dict) (t0 : Todo),
    In t0 (dict_values todos) ->
    status t0 <> COMPLETED ->
    exists (t : Todo) (rest : list Todo),
      sorted_todos todos = t :: rest /\
      suggest_next_todo todos =
        "Here are the current pending todos in order of priority:" ++ nl ++ nl
          ++ String.concat nl
               (map (fun t => "- " ++ title t ++ " (Priority: " ++ str_of_int (priority t)
                            ++ ", Status: " ++ TodoStatus_value (status t)
                            ++ "): " ++ description t)
                    (t :: rest))
          ++ nl ++ nl
          ++ "Based on these todos, which one should I tackle next and why? Please provide a brief recommendation." /\
      In t (dict_values todos) /\ status t <> COMPLETED /\
      (forall t', In t' (dict_values todos) -> status t' <> COMPLETED ->
                  priority t' <= priority t).
Proof.
  intros todos t0 Hin0 Hst0.
  assert (Hmem : forall x, In x (sorted_todos todos) <->
                           In x (dict_values todos) /\ status x <> COMPLETED).
  { intros x. unfold sorted_todos, pending_todos. split.
    - intros H. apply (Permutation_in _ (sorted_perm _)) in H.
      apply filter_In in H. destruct H as [Hin Hst]. split; [exact Hin |].
      intros Hc. rewrite Hc in Hst. discriminate.
    - intros [Hin Hst].
      apply (Permutation_in _ (Permutation_sym (sorted_perm _))).
      apply filter_In. split; [exact Hin |].
      destruct (status x); simpl; congruence. }
  assert (H0 : In t0 (sorted_todos todos)) by (apply Hmem; auto).
  destruct (sorted_todos todos) as [| t rest] eqn:Hs; [destruct H0 |].
  exists t, rest. split; [reflexivity |].
  split; [rewrite suggest_next_todo_text, Hs; reflexivity |].
  assert (Ht : In t (t :: rest)) by (left; reflexivity).
  apply Hmem in Ht. destruct Ht as [Hin Hst].
  split; [exact Hin |]. split; [exact Hst |].
  intros t' Hin' Hst'.
  assert (Ht' : In t' (t :: rest)) by (apply Hmem; auto).
  pose proof (sorted_StronglySorted (pending_todos todos)) as Hsorted.
  fold (sorted_todos todos) in Hsorted. rewrite Hs in Hsorted.
  inversion Hsorted as [| x l Hl Hall]; subst.
  destruct Ht' as [<- | Ht']; [lia |].
  rewrite Forall_forall in Hall. specialize (Hall t' Ht').
  unfold precedes in Hall. lia.
Qed.

Lemma suggest_first_has_highest_priority_witness :
  exists (t : Todo) (rest : list Todo),
    sorted_todos
      [("todo1", mkTodo "todo1" "a" "" PENDING 1 None None 2 []);
       ("todo2", mkTodo "todo2" "b" "" PENDING 2 None None 5 [])] = t :: rest /\
    suggest_next_todo
      [("todo1", mkTodo "todo1" "a" "" PENDING 1 None None 2 []);
       ("todo2", mkTodo "todo2" "b" "" PENDING 2 None None 5 [])] =
      "Here are the current pending todos in order of priority:" ++ nl ++ nl
        ++ String.concat nl
             (map (fun t => "- " ++ title t ++ " (Priority: " ++ str_of_int (priority t)
                            ++ ", Status: " ++ TodoStatus_value (status t)
                            ++ "): " ++ description t)
                  (t :: rest))
        ++ nl ++ nl
        ++ "Based on these todos, which one should I tackle next and why? Please provide a brief recommendation." /\
    In t (dict_values
            [("todo1", mkTodo "todo1" "a" "" PENDING 1 None None 2 []);
             ("todo2", mkTodo "todo2" "b" "" PENDING 2 None None 5 [])]) /\
    status t <> COMPLETED /\
    (forall t',
       In t' (dict_values
                [("todo1", mkTodo "todo1" "a" "" PENDING 1 None None 2 []);
                 ("todo2", mkTodo "todo2" "b" "" PENDING 2 None None 5 [])]) ->
       status t' <> COMPLETED -> priority t' <= priority t).
Proof.
  apply (suggest_first_has_highest_priority
           [("todo1", mkTodo "todo1" "a" "" PENDING 1 None None 2 []);
            ("todo2", mkTodo "todo2" "b" "" PENDING 2 None None 5 [])]
           (mkTodo "todo1" "a" "" PENDING 1 None None 2 [])).
  - left. reflexivity.
  - discriminate.
Defined.

(** X16: the lines of the text [suggest_next_todo] returns are those of a
    list in which the tasks that agree on priority and [created_at] stand in
    the order the store has them. *)
Theorem suggest_ties_keep_store_order :
  forall todos : dict,
    suggest_next_todo todos =
      match sorted_todos todos with
      | [] => "There are no pending todos. Would you like suggestions for new coding tasks to add?"
      | t0 :: rest =>
          "Here are the current pending todos in order of priority:" ++ nl ++ nl
            ++ String.concat nl
                 (map (fun t => "- " ++ title t ++ " (Priority: " ++ str_of_int (priority t)
                            ++ ", Status: " ++ TodoStatus_value (status t)
                            ++ "): " ++ description t)
                      (t0 :: rest))
            ++ nl ++ nl
            ++ "Based on these todos, which one should I tackle next and why? Please provide a brief recommendation."
      end /\
    (forall k : Todo,
       filter (fun t => (priority k =? priority t)
                        && (created_at k =? created_at t))
              (sorted_todos todos) =
       filter (fun t => (priority k =? priority t)
                        && (created_at k =? created_at t))
              (filter (fun t => negb (TodoStatus_eqb (status t) COMPLETED))
                      (dict_values todos))).
Proof.
  intros todos. split; [apply suggest_next_todo_text |].
  intros k. exact (sorted_stable k (pending_todos todos)).
Qed.

(** ** The listing resource *)

Lemma string_append_assoc (a b c : string) : (a ++ b) ++ c = a ++ b ++ c.
Proof. induction a as [| x a IH]; simpl; congruence. Qed.

Lemma list_entry_extends (result : string) (item : string * Todo) :
  exists s, list_entry result item = result ++ s.
Proof.
  destruct item as [k t]. unfold list_entry.
  destruct (tags t); [eexists; reflexivity |].
  rewrite string_append_assoc. eexists. reflexivity.
Qed.

Lemma fold_list_entry_extends (d : dict) (result : string) :
  exists s, fold_left list_entry d result = result ++ s.
Proof.
  revert result. induction d as [| item r IH]; intros result; simpl.
  - exists "". induction result; simpl; congruence.
  - destruct (list_entry_extends result item) as [s Hs]. rewrite Hs.
    destruct (IH (result ++ s)) as [s' Hs']. rewrite Hs', string_append_assoc.
    eexists. reflexivity.
Qed.

(** X17: [get_todo_list] answers "No todos found." for the empty store and
    for no other store. *)
Theorem get_todo_list_empty_iff :
  forall todos : dict, get_todo_list todos = "No todos found." <-> todos = [].
Proof.
  intros todos. split; [| intros ->; reflexivity].
  destruct todos as [| item r]; [reflexivity |].
  unfold get_todo_list.
  destruct (fold_list_entry_extends (item :: r) ("# Coding Project Todos" ++ nl ++ nl))
    as [s Hs].
  rewrite Hs. simpl. discriminate.
Qed.

Lemma list_entry_view (result k : string) (t1 t2 : Todo) :
  listing_view t1 = listing_view t2 ->
  list_entry result (k, t1) = list_entry result (k, t2).
Proof.
  unfold listing_view. intros H. inversion H as [[Ht Hp Hg Hs]].
  unfold list_entry. rewrite Ht, Hp, Hg, Hs. reflexivity.
Qed.

(** X18: the listing shows of a task its id, title, priority, tags and
    whether it is completed, and nothing else: two stores with the same ids
    in the same order whose tasks agree on these give the same listing. *)
Theorem get_todo_list_depends_on_view :
  forall d1 d2 : dict,
    Forall2 (fun a b => fst a = fst b /\
                        listing_view (snd a) = listing_view (snd b)) d1 d2 ->
    get_todo_list d1 = get_todo_list d2.
Proof.
  intros d1 d2 H.
  assert (Hfold : forall result,
             fold_left list_entry d1 result = fold_left list_entry d2 result).
  { induction H as [| [k1 t1] [k2 t2] r1 r2 [Hk Hv] Hr IH]; intros result;
      [reflexivity |].
    simpl in Hk, Hv. subst k2. cbn [fold_left].
    rewrite (list_entry_view result k1 t1 t2 Hv). apply IH. }
  unfold get_todo_list. inversion H; subst; [reflexivity |]. apply Hfold.
Qed.

Lemma get_todo_list_depends_on_view_witness :
  get_todo_list [("todo1", Todo_new 0 "todo1" "a" "b" None 3 [])] =
  get_todo_list
    [("todo1", mkTodo "todo1" "a" "other" IN_PROGRESS 4 (Some 9) (Some "P") 3 [])].
Proof.
  apply (get_todo_list_depends_on_view
           [("todo1", Todo_new 0 "todo1" "a" "b" None 3 [])]
           [("todo1", mkTodo "todo1" "a" "other" IN_PROGRESS 4 (Some 9)
                             (Some "P") 3 [])]).
  repeat constructor.
Defined.

Lemma fold_list_entry_modify (k : string) (f : Todo -> Todo) (d : dict) (t : Todo) :
  dict_get k d = Some t ->
  listing_view (f t) = listing_view t ->
  forall result,
    fold_left list_entry (dict_modify k f d) result = fold_left list_entry d result.
Proof.
  intros Hget Hview.
  induction d as [| [k' v] r IH]; intros result; [reflexivity |].
  simpl in Hget. cbn [dict_modify].
  destruct (String.eqb k k').
  - inversion Hget; subst v. cbn [fold_left].
    rewrite (list_entry_view result k' (f t) t Hview). reflexivity.
  - cbn [fold_left]. apply IH. exact Hget.
Qed.

(** X19: moving a task between the statuses pending and in progress does
    not show in the listing: [update_todo_status] to a status other than
    completed, on a task that is not completed, leaves [get_todo_list] as it
    was. *)
Theorem get_todo_list_ignores_open_status :
  forall (now : datetime) (id' : string) (s : TodoStatus) (todos : dict)
         (t : Todo),
    dict_get id' todos = Some t ->
    status t <> COMPLETED ->
    s <> COMPLETED ->
    get_todo_list (fst (update_todo_status now id' (TodoStatus_value s) todos)) =
    get_todo_list todos.
Proof.
  intros now id' s todos t Hget Ht Hs.
  rewrite (update_todo_status_valid now id' s todos t Hget). cbn [fst].
  assert (Hview : listing_view (set_updated_at (Some now) (set_status s t)) =
                  listing_view t).
  { unfold listing_view. simpl.
    replace (TodoStatus_eqb s COMPLETED) with false
      by (destruct s; simpl; congruence).
    replace (TodoStatus_eqb (status t) COMPLETED) with false
      by (destruct (status t); simpl; congruence).
    reflexivity. }
  unfold get_todo_list.
  destruct todos as [| [k v] r]; [reflexivity |].
  rewrite <- (fold_list_entry_modify id'
                (fun t => set_updated_at (Some now) (set_status s t))
                ((k, v) :: r) t Hget Hview).
  cbn [dict_modify]. destruct (String.eqb id' k); reflexivity.
Qed.

Lemma get_todo_list_ignores_open_status_witness :
  get_todo_list
    (fst (update_todo_status 7 "todo1" (TodoStatus_value IN_PROGRESS)
            [("todo1", Todo_new 0 "todo1" "a" "b" None 3 [])])) =
  get_todo_list [("todo1", Todo_new 0 "todo1" "a" "b" None 3 [])].
Proof.
  apply (get_todo_list_ignores_open_status 7 "todo1" IN_PROGRESS
           [("todo1", Todo_new 0 "todo1" "a" "b" None 3 [])]
           (Todo_new 0 "todo1" "a" "b" None 3 []));
    [reflexivity | discriminate | discriminate].
Defined.

(** ** Seeding *)

Lemma initialize_example_todos_eq (class_now : datetime) (d : dict) :
  fst (initialize_example_todos class_now d) =
    dict_set "todo3"
      (Todo_new class_now "todo3" "Write unit tests"
         "Create tests for the new data processing module"
         (Some "Backend API") 2 ["testing"; "quality"])
      (dict_set "todo2"
         (Todo_new class_now "todo2" "Fix CSS responsiveness"
            "The dashboard layout breaks on mobile devices"
            (Some "Frontend UI") 3 ["frontend"; "css"; "bugfix"])
         (dict_set "todo1"
            (Todo_new class_now "todo1" "Implement user authentication"
               "Add JWT-based authentication to the API endpoints"
               (Some "Backend API") 4 ["backend"; "security"])
            d)).
Proof. reflexivity. Qed.

(** X20: seeding puts the three example todos under todo1, todo2 and todo3,
    in place of anything stored there, touches no other id, and seeding a
    second time changes nothing. *)
Theorem initialize_example_todos_idempotent :
  forall (class_now : datetime) (todos : dict),
    let seeded := fst (initialize_example_todos class_now todos) in
    map (fun k => dict_get k seeded) ["todo1"; "todo2"; "todo3"] =
      map Some (example_todos class_now) /\
    (forall k, k <> "todo1" -> k <> "todo2" -> k <> "todo3" ->
               dict_get k seeded = dict_get k todos) /\
    fst (initialize_example_todos class_now seeded) = seeded.
Proof.
  intros class_now todos. cbv zeta.
  assert (H3 : dict_get "todo3" (fst (initialize_example_todos class_now todos))
               = nth_error (example_todos class_now) 2).
  { rewrite initialize_example_todos_eq. apply dict_get_set_same. }
  assert (H2 : dict_get "todo2" (fst (initialize_example_todos class_now todos))
               = nth_error (example_todos class_now) 1).
  { rewrite initialize_example_todos_eq.
    rewrite dict_get_set_other by discriminate. apply dict_get_set_same. }
  assert (H1 : dict_get "todo1" (fst (initialize_example_todos class_now todos))
               = nth_error (example_todos class_now) 0).
  { rewrite initialize_example_todos_eq.
    rewrite !dict_get_set_other by discriminate. apply dict_get_set_same. }
  split; [| split].
  - cbn [map]. rewrite H1, H2, H3. reflexivity.
  - intros k K1 K2 K3. rewrite initialize_example_todos_eq.
    rewrite !dict_get_set_other by congruence. reflexivity.
  - rewrite (initialize_example_todos_eq class_now
               (fst (initialize_example_todos class_now todos))).
    rewrite (dict_set_same_value "todo1") by exact H1.
    rewrite (dict_set_same_value "todo2") by exact H2.
    rewrite (dict_set_same_value "todo3") by exact H3.
    reflexivity.
Qed.

Lemma initialize_example_todos_idempotent_witness :
  dict_get "todo9"
    (fst (initialize_example_todos 0
            [("todo9", Todo_new 0 "todo9" "a" "b" None 3 [])])) =
  dict_get "todo9" [("todo9", Todo_new 0 "todo9" "a" "b" None 3 [])].
Proof.
  apply (proj1 (proj2 (initialize_example_todos_idempotent 0
                         [("todo9", Todo_new 0 "todo9" "a" "b" None 3 [])])));
    discriminate.
Defined.

(** ** The item resource *)

(** X21: the item resource shows no project line for a task whose project
    is the empty string: its text is the text of the same task without a
    project. *)
Theorem get_todo_item_empty_project :
  forall (strftime : datetime -> string) (todo_id : string) (todos : dict)
         (t : Todo),
    dict_get todo_id todos = Some t ->
    project t = Some "" ->
    get_todo_item strftime todo_id todos =
      (todos,
       snd (get_todo_item strftime todo_id [(todo_id, set_project None t)])).
Proof.
  intros strftime todo_id todos t Hget Hp.
  unfold get_todo_item, bind, get_todos. cbn [dict_get].
  rewrite Hget, String.eqb_refl, Hp. reflexivity.
Qed.

Lemma get_todo_item_empty_project_witness :
  get_todo_item (fun _ => "T") "todo1"
    [("todo1", Todo_new 0 "todo1" "a" "b" (Some "") 3 [])] =
    ([("todo1", Todo_new 0 "todo1" "a" "b" (Some "") 3 [])],
     snd (get_todo_item (fun _ => "T") "todo1"
            [("todo1", set_project None (Todo_new 0 "todo1" "a" "b" (Some "") 3 []))])).
Proof.
  apply (get_todo_item_empty_project (fun _ => "T") "todo1"
           [("todo1", Todo_new 0 "todo1" "a" "b" (Some "") 3 [])]
           (Todo_new 0 "todo1" "a" "b" (Some "") 3 []));
    reflexivity.
Defined.

(** ** Creation after a deletion *)

Lemma dict_len_set_present (k : string) (v : Todo) (d : dict) :
  dict_contains k d = true -> dict_len (dict_set k v d) = dict_len d.
Proof.
  unfold dict_contains, dict_len.
  induction d as [| [k0 v0] r IH]; simpl; [discriminate |].
  destruct (String.eqb k k0); simpl; [reflexivity |].
  intros H. rewrite IH by assumption. reflexivity.
Qed.

Lemma first_ids_wf (d : dict) : keys_are_first_ids d -> dict_wf d.
Proof.
  unfold keys_are_first_ids, dict_wf. intros ->.
  apply Finite.Injective_map_NoDup; [| apply seq_NoDup].
  intros a b. apply next_id_inj.
Qed.

Lemma first_ids_contains (d : dict) (i : nat) :
  keys_are_first_ids d -> (i < dict_len d)%nat ->
  dict_contains (next_id i) d = true.
Proof.
  intros H Hi. apply dict_contains_In. rewrite H.
  apply in_map, in_seq. lia.
Qed.

(** X22: in a store whose ids are todo1 .. todoN in order, deleting any
    task but the last and then creating one gives the new task the id todoN:
    the task that held todoN is replaced by the new one, and the store is
    left with N-1 tasks. *)
Theorem add_todo_after_delete_overwrites_last :
  forall (class_now : datetime) (i : nat) (title' description' : string)
         (project' : option string) (priority' : Z)
         (tags' : option (list string)) (todos : dict),
    keys_are_first_ids todos ->
    (i + 1 < dict_len todos)%nat ->
    let last_id := next_id (dict_len todos - 1) in
    let todos1 := fst (delete_todo (next_id i) todos) in
    let r := add_todo class_now title' description' project' priority' tags'
                      todos1 in
    dict_get last_id todos1 = dict_get last_id todos /\
    dict_contains last_id todos1 = true /\
    snd r = Return ("Added todo '" ++ title' ++ "' with ID: " ++ last_id) /\
    option_map title (dict_get last_id (fst r)) = Some title' /\
    dict_len (fst r) = (dict_len todos - 1)%nat.
Proof.
  intros class_now i ti de pr pri tg todos Hk Hi. cbv zeta.
  assert (Hci : dict_contains (next_id i) todos = true)
    by (apply first_ids_contains; [exact Hk | lia]).
  assert (Hcl : dict_contains (next_id (dict_len todos - 1)) todos = true)
    by (apply first_ids_contains; [exact Hk | lia]).
  destruct (dict_contains_get _ _ Hci) as [t Ht].
  rewrite (delete_todo_eq _ _ _ Ht). cbn [fst].
  assert (Hne : next_id i <> next_id (dict_len todos - 1)).
  { intros E. apply next_id_inj in E. lia. }
  assert (Hlen : dict_len (dict_del (next_id i) todos) = (dict_len todos - 1)%nat).
  { pose proof (dict_len_del _ _ Hci). lia. }
  assert (Hget : dict_get (next_id (dict_len todos - 1))
                          (dict_del (next_id i) todos)
                 = dict_get (next_id (dict_len todos - 1)) todos)
    by (apply dict_get_del_other; exact Hne).
  assert (Hcl' : dict_contains (next_id (dict_len todos - 1))
                               (dict_del (next_id i) todos) = true).
  { unfold dict_contains in *. rewrite Hget. exact Hcl. }
  rewrite add_todo_eq, Hlen. cbn [fst snd].
  split; [exact Hget |]. split; [exact Hcl' |]. split; [reflexivity |].
  split.
  - rewrite dict_get_set_same. reflexivity.
  - rewrite dict_len_set_present by exact Hcl'. exact Hlen.
Qed.

Lemma add_todo_after_delete_overwrites_last_witness :
  snd (add_todo 0 "c" "C" None 1 None
         (fst (delete_todo (next_id 0) (seeded_todos 0)))) =
    Return ("Added todo '" ++ "c" ++ "' with ID: "
              ++ next_id (dict_len (seeded_todos 0) - 1)).
Proof.
  apply (add_todo_after_delete_overwrites_last 0 0 "c" "C" None 1 None
           (seeded_todos 0)).
  - reflexivity.
  - simpl. lia.
Defined.

(** ** Priorities over a session *)

(** X23: a session whose creations all come with a priority in 1..5 leaves,
    from the empty store or from the seeded one, a store in which every task
    has its priority in 1..5, whatever updates and deletions it makes and
    whichever of its calls fail. *)
Theorem session_priorities_in_range :
  forall (class_now : datetime) (cs : list (datetime * Call)),
    Forall (fun c => call_priority_ok (snd c)) cs ->
    priorities_in_range (run class_now cs []) /\
    priorities_in_range (run class_now cs (seeded_todos class_now)).
Proof.
  intros class_now cs H.
  assert (Hrun : forall d, priorities_in_range d ->
                           priorities_in_range (run class_now cs d)).
  { induction H as [| [now c] r Hc Hr IH]; intros d Hd; simpl; [exact Hd |].
    apply IH, call_tool_priorities_in_range; assumption. }
  split; apply Hrun.
  - intros t [].
  - intros t Ht. simpl in Ht. unfold priority_in_range.
    destruct Ht as [<- | [<- | [<- | []]]]; simpl; lia.
Qed.

Lemma session_priorities_in_range_witness :
  priorities_in_range
    (run 0 [(1, AddTodo "a" "A" None 5 None);
            (2, UpdateTodo "todo1" None None None (Some 9) None)] []).
Proof.
  refine (proj1 (session_priorities_in_range 0
                   [(1, AddTodo "a" "A" None 5 None);
                    (2, UpdateTodo "todo1" None None None (Some 9) None)] _)).
  repeat constructor; simpl; lia.
Defined.
